(** * DualPol: the retrieval orchestration engine of [dualpol.py]

    A shallow embedding of the class [DualPolRetrieval] (DualPol v0.9) and of
    the numpy / Python behaviour its methods rely on, followed by the
    properties of the orchestration core: sounding normalisation, the
    field-commit rule, quality control, the name check with its KDP
    fallback, and the sequencing of the retrieval stages. *)

From Stdlib Require Import ZArith List Bool Lia Ascii String.
From stdpp Require Import gmap strings list fin_maps.

(** ** Python exceptions and fallible values *)

Inductive exn :=
  | KeyError
  | AttributeError
  | IndexError
  | TypeError
  | ValueError
  | UnboundLocalError
  | IOError.

Inductive result (A : Type) :=
  | Ok (a : A)
  | Raise (e : exn).
Arguments Ok {A} a.
Arguments Raise {A} e.

#[global] Instance result_ret : MRet result := fun _ a => Ok a.
#[global] Instance result_bind : MBind result := fun _ _ f m =>
  match m with Ok a => f a | Raise e => Raise e end.
#[global] Instance result_fmap : FMap result := fun _ _ f m =>
  match m with Ok a => Ok (f a) | Raise e => Raise e end.

(** ** numpy arrays

    Sample values are floats in the source.  The orchestration code only
    moves them around, compares sounding heights and substitutes the
    bad-data sentinel, so a sample is an integer here (UWYO soundings list
    heights in whole metres).  Two-dimensional (ray, gate) arrays are held
    in row-major order, which is the order of numpy's [flat]. *)

Module Numpy.

(** What [a.mask] is for an array object [a]. *)
Inductive maskattr :=
  | NoAttr                  (* plain ndarray: no attribute [mask] at all *)
  | NoMask                  (* MaskedArray whose mask is [numpy.ma.nomask] *)
  | MaskArr (m : list bool) (* MaskedArray with one flag per element *).

Record ndarray := mk_array { adata : list Z; amask : maskattr }.

(** [numpy.array(list)] *)
Definition plain (l : list Z) : ndarray := mk_array l NoAttr.

(** [hasattr(a, 'mask')] *)
Definition hasattr_mask (a : ndarray) : bool :=
  match amask a with NoAttr => false | _ => true end.

(** [numpy.ma.getmaskarray(a)]: the mask gate for gate, all clear when the
    array carries none. *)
Definition getmaskarray (a : ndarray) : list bool :=
  match amask a with
  | MaskArr m => m
  | _ => repeat false (length (adata a))
  end.

(** [numpy.ma.asanyarray(a)]: a MaskedArray is passed through, an ndarray is
    viewed as a MaskedArray without mask. *)
Definition asanyarray (a : ndarray) : ndarray :=
  match amask a with
  | NoAttr => mk_array (adata a) NoMask
  | _ => a
  end.

(** [a.filled(fill_value=bad)] *)
Definition filled (bad : Z) (a : ndarray) : list Z :=
  match amask a with
  | MaskArr m => zip_with (fun d (b : bool) => if b then bad else d) (adata a) m
  | _ => adata a
  end.

(** [cur.flat = src]: numpy walks the target and recycles the source; an
    empty source leaves the target alone. *)
Definition flat_assign (cur src : list bool) : list bool :=
  match src with
  | [] => cur
  | b :: _ => map (fun i => nth (i mod length src) src b) (seq 0 (length cur))
  end.

(** Reading [a.mask]: [None] stands for the scalar [nomask]. *)
Definition get_mask (a : ndarray) : result (option (list bool)) :=
  match amask a with
  | NoAttr => Raise AttributeError
  | NoMask => Ok None
  | MaskArr m => Ok (Some m)
  end.

(** [setattr(a, 'mask', v)] for a soft mask (numpy's default), after
    [MaskedArray.__setmask__].  An ndarray accepts no new attribute. *)
Definition set_mask (a : ndarray) (v : option (list bool)) : result ndarray :=
  match amask a, v with
  | NoAttr, _ => Raise AttributeError
  | NoMask, None => Ok a
  | NoMask, Some m =>
      Ok (mk_array (adata a)
            (MaskArr (flat_assign (repeat false (length (adata a))) m)))
  | MaskArr c, None => Ok (mk_array (adata a) (MaskArr (repeat false (length c))))
  | MaskArr c, Some m => Ok (mk_array (adata a) (MaskArr (flat_assign c m)))
  end.

(** [a.mask[i]] *)
Definition mask_item (a : ndarray) (i : nat) : result bool :=
  match amask a with
  | NoAttr => Raise AttributeError
  | NoMask => Raise IndexError
  | MaskArr m => match m !! i with Some b => Ok b | None => Raise IndexError end
  end.

(** [a[i]] for an element that is not masked *)
Definition item (a : ndarray) (i : nat) : result Z :=
  match adata a !! i with Some x => Ok x | None => Raise IndexError end.

(** [numpy.logical_or(a, b)] on arrays of one shape; other shapes do not
    broadcast in the flattened representation. *)
Definition logical_or (a b : list bool) : result (list bool) :=
  if decide (length a = length b) then Ok (zip_with orb a b) else Raise ValueError.

(** [d[m] = bad] with a boolean index array [m] *)
Definition assign_where (d : list Z) (m : list bool) (bad : Z) : result (list Z) :=
  if decide (length m = length d)
  then Ok (zip_with (fun x (b : bool) => if b then bad else x) d m)
  else Raise IndexError.

(** A MaskedArray keeps its mask in the shape of its data. *)
Definition wf_array (a : ndarray) : Prop :=
  match amask a with
  | MaskArr m => length m = length (adata a)
  | _ => True
  end.

End Numpy.
Import Numpy.

(** ** Sounding normalisation: the body of [check_sounding_for_montonic]

    [snd_z] is read through its data: a sounding whose heights are
    themselves masked is outside this model. *)

(** The [for] loop from index [i] on; [prev] is [snd_z[i-1]]. *)
Fixpoint keep_from (T : ndarray) (i : nat) (prev : Z) (zs : list Z)
  : result (list Z * list Z) :=
  match zs with
  | [] => Ok ([], [])
  | h :: tl =>
      keep ← (if (h >? prev)%Z then negb <$> mask_item T i else Ok false);
      here ← (if keep : bool then t ← item T i; Ok (Some t) else Ok None);
      '(kz, kT) ← keep_from T (S i) h tl;
      Ok (match here with
          | Some t => (h :: kz, t :: kT)
          | None => (kz, kT)
          end)
  end.

Definition normalize (z T : ndarray) : result (list Z * list Z) :=
  m0 ← mask_item T 0;
  first ← (if negb m0 then z0 ← item z 0; t0 ← item T 0; Ok (Some (z0, t0))
           else Ok None);
  '(kz, kT) ← match adata z with
              | [] => Ok ([], [])
              | h :: tl => keep_from T 1 h tl
              end;
  Ok (match first with
      | Some (z0, t0) => (z0 :: kz, t0 :: kT)
      | None => (kz, kT)
      end).

(** Heights strictly increasing: [height[i] > height[i-1]] for every [i > 0]. *)
Fixpoint strictly_increasing (l : list Z) : bool :=
  match l with
  | [] => true
  | x :: tl =>
      match tl with
      | [] => true
      | y :: _ => (y >? x)%Z && strictly_increasing tl
      end
  end.

(** ** The radar volume (the part of a Py-ART radar object the engine uses) *)

Record Field := mk_field {
  f_data : ndarray;
  f_units : string;
  f_long_name : string;
  f_standard_name : string;
  f_FillValue : option Z   (* the key ['_FillValue'], when the dict has it *)
}.

Record Radar := mk_radar {
  fields : gmap string Field;
  r_range : list Z;
  r_azimuth : list Z;
  r_elevation : list Z;
  r_altitude : Z
}.

(** [radar.add_field(name, dic, replace_existing=True)] *)
Definition add_field (name : string) (dic : Field) (r : Radar) : Radar :=
  mk_radar (<[name := dic]> (fields r))
           (r_range r) (r_azimuth r) (r_elevation r) (r_altitude r).

(** ** Python values held in attributes and keyword arguments *)

Inductive value :=
  | VNone
  | VBool (b : bool)
  | VNum (z : Z)
  | VStr (s : string)
  | VArr (a : ndarray)
  | VRadar (r : Radar)
  | VDict (d : dict)
  | VPairs (l : list (Z * Z))
  | VNums (l : list Z)
with dict :=
  | DNil
  | DCons (k : string) (v : value) (tl : dict).

Definition is_none (v : value) : bool :=
  match v with VNone => true | _ => false end.

(** Truth value of an object in an [if]. *)
Definition truthy (v : value) : result bool :=
  match v with
  | VNone => Ok false
  | VBool b => Ok b
  | VNum z => Ok (negb (z =? 0)%Z)
  | VStr s => Ok (negb (String.eqb s ""))
  | VArr a => match adata a with
              | [] => Ok false
              | [x] => Ok (negb (x =? 0)%Z)
              | _ => Raise ValueError
              end
  | VRadar _ => Ok true
  | VDict d => Ok (match d with DNil => false | _ => true end)
  | VPairs l => Ok (negb (Nat.eqb (length l) 0))
  | VNums l => Ok (negb (Nat.eqb (length l) 0))
  end.

(** [v == s] for a string literal [s] *)
Definition eq_str (v : value) (s : string) : bool :=
  match v with VStr t => String.eqb t s | _ => false end.

Definition as_num (v : value) : result Z :=
  match v with VNum z => Ok z | _ => Raise TypeError end.

(** [prefix + v] and [v + suffix] on strings *)
Definition str_concat_l (p : string) (v : value) : result string :=
  match v with VStr s => Ok (p +:+ s) | _ => Raise TypeError end.
Definition str_concat_r (v : value) (q : string) : result string :=
  match v with VStr s => Ok (s +:+ q) | _ => Raise TypeError end.

Definition upper_ascii (c : ascii) : ascii :=
  let n := nat_of_ascii c in
  if Nat.leb 97 n && Nat.leb n 122 then ascii_of_nat (n - 32) else c.

Fixpoint upper_string (s : string) : string :=
  match s with
  | EmptyString => EmptyString
  | String c tl => String (upper_ascii c) (upper_string tl)
  end.

(** [v.upper()] *)
Definition upper (v : value) : result string :=
  match v with VStr s => Ok (upper_string s) | _ => Raise AttributeError end.

(** [v[key]] for a string key *)
Fixpoint assoc (key : string) (d : dict) : option value :=
  match d with
  | DNil => None
  | DCons k v tl => if String.eqb k key then Some v else assoc key tl
  end.

Definition subscript (v : value) (key : string) : result value :=
  match v with
  | VDict d => match assoc key d with Some x => Ok x | None => Raise KeyError end
  | VArr _ => Raise IndexError
  | _ => Raise TypeError
  end.

(** [name in radar.fields]; the directory is keyed by strings. *)
Definition in_fields (name : value) (r : Radar) : bool :=
  match name with
  | VStr s => bool_decide (is_Some (fields r !! s))
  | _ => false
  end.

(** [radar.fields[name]] *)
Definition get_field (name : value) (r : Radar) : result Field :=
  match name with
  | VStr s => match fields r !! s with Some f => Ok f | None => Raise KeyError end
  | _ => Raise KeyError
  end.

(** [numpy.meshgrid(xs, ys)], both results flattened *)
Definition meshgrid_x (xs ys : list Z) : list Z := flat_map (fun _ => xs) ys.
Definition meshgrid_y (xs ys : list Z) : list Z :=
  flat_map (fun y => map (fun _ => y) xs) ys.

(** [numpy.argmax(scores, axis=0) + 1] for [scores] given as one row per class *)
Fixpoint argmax_from (best : Z) (besti i : nat) (l : list Z) : nat :=
  match l with
  | [] => besti
  | x :: tl =>
      if (x >? best)%Z then argmax_from x i (S i) tl
      else argmax_from best besti (S i) tl
  end.

Definition argmax (l : list Z) : nat :=
  match l with [] => 0 | x :: tl => argmax_from x 0 1 tl end.

Definition argmax_axis0_plus1 (scores : list (list Z)) : result (list Z) :=
  match scores with
  | [] => Raise ValueError
  | row :: _ =>
      Ok (map (fun g => (Z.of_nat (argmax (map (fun r => nth g r 0%Z) scores)) + 1)%Z)
              (seq 0 (length row)))
  end.

(** ** External collaborators

    Py-ART, SkewT, numpy's interpolation and the csu_radartools algorithms
    are outside the module; each is a function the engine calls, and each
    may raise.  Options the engine only hands on stay [value]s. *)

Class Externals := {
  pyart_io_read : string -> result Radar;
  radar_coords_to_cart : list Z -> list Z -> list Z -> result (list Z * list Z * list Z);
  SkewT_Sounding : string -> result (ndarray * ndarray);  (* ['temp'], ['hght'] *)
  np_interp : list Z -> ndarray -> ndarray -> result (list Z);
  fdiv : Z -> Z -> Z;                                      (* float division *)
  calc_kdp_bringi :
    list Z -> list Z -> list Z -> value -> value -> value ->
    result (ndarray * ndarray * ndarray);                  (* kdp, fdp, sdp *)
  insect_filter : list Z -> list Z -> value -> value -> value -> result (list bool);
  differential_phase_filter : list Z -> value -> result (list bool);
  despeckle : list Z -> value -> value -> result (list bool);
  csu_fhc_summer :
    ndarray -> ndarray -> ndarray -> ndarray -> option ndarray ->
    value -> value -> value -> value -> value -> value -> value ->
    result (list (list Z));
  csu_hidro_rain : ndarray -> ndarray -> ndarray -> ndarray -> result (ndarray * ndarray);
  calc_blended_rain : ndarray -> ndarray -> ndarray -> result (ndarray * ndarray);
  calc_blended_rain_ice :
    ndarray -> ndarray -> ndarray -> value ->
    result (ndarray * ndarray * ndarray * ndarray);        (* rain, method, zdp, fi *)
  calc_dsd : ndarray -> ndarray -> ndarray -> value -> result (ndarray * ndarray * ndarray);
  calc_liquid_ice_mass : ndarray -> ndarray -> list Z -> value -> result (ndarray * ndarray);
  DEFAULT_WEIGHTS : value;
  DEFAULT_DZ_RANGE : value;
  DEFAULT_DR_THRESH : value
}.

(** ** Module constants *)

Definition RNG_MULT : Z := 1000.
Definition BAD : Z := -32768.
Definition DEFAULT_SDP : Z := 12.

Definition DEFAULT_KW `{Externals} : gmap string value :=
  list_to_map
    [ ("dz", VStr "DZ"); ("dr", VStr "DR"); ("dp", VNone); ("rh", VStr "RH");
      ("kd", VNone); ("ld", VNone); ("sounding", VNone);
      ("verbose", VBool false); ("thresh_sdp", VNum DEFAULT_SDP);
      ("fhc_T_factor", VNum 1); ("fhc_weights", DEFAULT_WEIGHTS);
      ("name_fhc", VStr "FH"); ("band", VStr "S");
      ("fhc_method", VStr "hybrid"); ("kdp_method", VStr "CSU");
      ("bad", VNum BAD); ("use_temp", VBool true); ("ice_flag", VBool false);
      ("dsd_flag", VBool true); ("fhc_flag", VBool true);
      ("rain_method", VStr "hidro"); ("precip_flag", VBool true);
      ("liquid_ice_flag", VBool true); ("winter", VBool false);
      ("gs", VNum 150); ("qc_flag", VBool false); ("kdp_window", VNum 3);
      ("dz_range", DEFAULT_DZ_RANGE); ("name_sdp", VStr "SDP_CSU");
      ("thresh_dr", DEFAULT_DR_THRESH); ("speckle", VNum 4) ].

(** [check_kwargs]: every default the caller did not give is filled in. *)
Definition check_kwargs (kwargs default_kw : gmap string value) : gmap string value :=
  kwargs ∪ default_kw.

(** ** The engine object and the monad of its methods

    [self] is the instance dictionary of the [DualPolRetrieval] object: an
    attribute that was never assigned is absent from it.  Output to the
    console, warnings and calls of external algorithms are logged in the
    order they happen.  A raised exception keeps the state reached so far,
    as the mutations of a Python object survive a raise. *)

Inductive event :=
  | Print (s : string)
  | Warn (s : string)
  | Call (f : string).

Record pystate := mk_state { self : gmap string value; log : list event }.

Inductive outcome (A : Type) :=
  | Return (a : A) (s : pystate)
  | Throw (e : exn) (s : pystate).
Arguments Return {A} a s.
Arguments Throw {A} e s.

Definition M (A : Type) : Type := pystate -> outcome A.

#[global] Instance M_ret : MRet M := fun _ a s => Return a s.
#[global] Instance M_bind : MBind M := fun _ _ f m s =>
  match m s with
  | Return a s' => f a s'
  | Throw e s' => Throw e s'
  end.

Definition lift {A} (r : result A) : M A := fun s =>
  match r with Ok a => Return a s | Raise e => Throw e s end.

Definition emit (e : event) : M unit := fun s =>
  Return tt (mk_state (self s) (log s ++ [e])).

Definition print (msg : string) : M unit := emit (Print msg).
Definition warnings_warn (msg : string) : M unit := emit (Warn msg).

(** A call into an external library: logged, then its result or exception. *)
Definition call {A} (f : string) (r : result A) : M A :=
  emit (Call f);; lift r.

(** [self.k] *)
Definition getattr (k : string) : M value := fun s =>
  match self s !! k with
  | Some v => Return v s
  | None => Throw AttributeError s
  end.

(** [self.k = v] *)
Definition setattr (k : string) (v : value) : M unit := fun s =>
  Return tt (mk_state (<[k := v]> (self s)) (log s)).

(** [hasattr(self, k)] *)
Definition hasattr (k : string) : M bool := fun s =>
  Return (bool_decide (is_Some (self s !! k))) s.

(** [try: body  except: handler] with a bare [except] *)
Definition try_except {A} (body handler : M A) : M A := fun s =>
  match body s with
  | Return a s' => Return a s'
  | Throw _ s' => handler s'
  end.

(** The truth value of [self.k] *)
Definition flag (k : string) : M bool := v ← getattr k; lift (truthy v).

(** [if self.verbose: print(msg)] *)
Definition verbose_print (msg : string) : M unit :=
  b ← flag "verbose"; if b : bool then print msg else mret tt.

(** [self.radar], used as a radar object *)
Definition the_radar : M Radar :=
  v ← getattr "radar";
  match v with VRadar r => mret r | _ => lift (Raise AttributeError) end.

(** [self.k], used as an array *)
Definition getattr_arr (k : string) : M ndarray :=
  v ← getattr k;
  match v with
  | VArr a => mret a
  | VNone => lift (Raise AttributeError)
  | _ => lift (Raise TypeError)
  end.

(** [self.radar.fields[self.k]['data']] *)
Definition field_data (k : string) : M ndarray :=
  r ← the_radar; name ← getattr k; f ← lift (get_field name r); mret (f_data f).

(** ** Methods of [DualPolRetrieval]

    Each method is transcribed statement by statement.  An array returned
    by an external algorithm is a fresh object: sharing of one array object
    between two fields of the volume is not modelled, and masks are soft
    (numpy's default), so that setting a mask overwrites it. *)

Section Methods.
Context `{Externals}.

(** [get_z_from_radar(radar)] *)
Definition get_z_from_radar (radar : Radar) : M (list Z) :=
  let azimuth_1D := r_azimuth radar in
  let elevation_1D := r_elevation radar in
  let srange_1D := r_range radar in
  let sr_2d := meshgrid_x srange_1D azimuth_1D in
  let az_2d := meshgrid_y srange_1D azimuth_1D in
  let el_2d := meshgrid_y srange_1D elevation_1D in
  '(xx, yy, zz) ← call "radar_coords_to_cart"
     (radar_coords_to_cart (map (fun x => fdiv x RNG_MULT) sr_2d) az_2d el_2d);
  mret (map (fun z => (z + r_altitude radar)%Z) zz).

(** A [VRadar] value is an object with a [latitude]; any other value fails
    the probe [self.radar.latitude['data']]. *)
Definition do_radar_check (radar : value) : M bool :=
  ok ← match radar with
       | VStr path =>
           try_except
             (r ← call "pyart.io.read" (pyart_io_read path);
              setattr "radar" (VRadar r);; mret true)
             (warnings_warn "Bad file name provided, try again";; mret false)
       | _ => setattr "radar" radar;; mret true
       end;
  if ok : bool then
    try_except
      (_ ← the_radar; mret true)
      (warnings_warn "Need a real Py-ART radar object, try again";; mret false)
  else mret false.

(** [extract_unmasked_data(field)]; every call leaves [bad=None]. *)
Definition extract_unmasked_data (field : value) : M (list Z) :=
  r ← the_radar;
  f ← lift (get_field field r);
  let var := f_data f in
  if hasattr_mask var then
    bad ← getattr "bad";
    b ← lift (as_num bad);
    mret (filled b var)
  else mret (adata var).

(** The sentinel [bad] is a number and a field name is a string: any other
    value is refused with [TypeError] here, where Python would store it. *)
Definition add_field_to_radar_object (field : ndarray) (field_name : value)
    (units long_name standard_name : string) : M unit :=
  let masked_field := asanyarray field in
  bad ← getattr "bad";
  base ← field_data "name_dz";
  '(masked_field, fill_value) ←
    (if hasattr_mask base then
       m ← lift (get_mask base);
       mf ← lift (set_mask masked_field m);
       r ← the_radar; name ← getattr "name_dz"; f ← lift (get_field name r);
       match f_FillValue f with
       | Some fv => mret (mf, VNum fv)
       | None => lift (Raise KeyError)
       end
     else mret (masked_field, bad));
  fv ← lift (as_num fill_value);
  name ← lift (match field_name with VStr s => Ok s | _ => Raise TypeError end);
  let field_dict := mk_field masked_field units long_name standard_name (Some fv) in
  r ← the_radar;
  setattr "radar" (VRadar (add_field name field_dict r)).

(** The default arguments of [add_field_to_radar_object] *)
Definition add_hid_field (field : ndarray) (field_name : value) : M unit :=
  add_field_to_radar_object field field_name "unitless" "Hydrometeor ID" "Hydrometeor ID".

Definition call_csu_kdp : M ndarray :=
  verbose_print "Calculating KDP via CSU method";;
  name_dp ← getattr "name_dp"; dp ← extract_unmasked_data name_dp;
  name_dz ← getattr "name_dz"; dz ← extract_unmasked_data name_dz;
  bad ← getattr "bad";
  r ← the_radar;
  let rng := map (fun x => fdiv x RNG_MULT) (r_range r) in
  let az := r_azimuth r in
  let rng2d := meshgrid_x rng az in
  gs ← getattr "gs"; thsd ← getattr "thresh_sdp"; bad ← getattr "bad";
  '(kdp, fdp, sdp) ← call "csu_kdp.calc_kdp_bringi"
                        (calc_kdp_bringi dp dz rng2d gs thsd bad);
  kdp_method ← getattr "kdp_method";
  name_fdp ← lift (str_concat_l "FDP_" kdp_method);
  setattr "name_fdp" (VStr name_fdp);;
  add_field_to_radar_object fdp (VStr name_fdp)
    "deg" "Filtered Differential Phase" "Filtered Differential Phase";;
  name_sdp ← getattr "name_sdp";
  add_field_to_radar_object sdp name_sdp
    "deg" "Standard Deviation of Differential Phase" "Std Dev Differential Phase";;
  mret kdp.

Definition calculate_kdp : M bool :=
  let wstr := "Missing differential phase and KDP fields, failing ..." in
  name_dp ← getattr "name_dp";
  if negb (is_none name_dp) then
    r ← the_radar;
    if in_fields name_dp r then
      kdp_method ← getattr "kdp_method";
      u ← lift (upper kdp_method);
      kdp ← (if String.eqb u "CSU" then k ← call_csu_kdp; mret (Some k)
             else mret None);
      kdp_method ← getattr "kdp_method";
      name_kd ← lift (str_concat_l "KDP_" kdp_method);
      setattr "name_kd" (VStr name_kd);;
      k ← lift (match kdp with Some k => Ok k | None => Raise UnboundLocalError end);
      add_field_to_radar_object k (VStr name_kd)
        "deg km-1" "Specific Differential Phase" "KDP";;
      mret true
    else warnings_warn wstr;; mret false
  else warnings_warn wstr;; mret false.

Definition do_name_check : M bool :=
  let wstr := " field not in radar object, check variable names" in
  r ← the_radar;
  name_dz ← getattr "name_dz";
  if in_fields name_dz r then
    name_dr ← getattr "name_dr";
    if in_fields name_dr r then
      name_rh ← getattr "name_rh";
      if in_fields name_rh r then
        name_ld ← getattr "name_ld";
        (if negb (is_none name_ld) then
           if negb (in_fields name_ld r) then
             verbose_print "Not finding LDR field, not using";;
             setattr "name_ld" VNone
           else mret tt
         else verbose_print "Not provided LDR field, not using");;
        name_kd ← getattr "name_kd";
        kdp_flag ←
          (if negb (is_none name_kd) then
             if negb (in_fields name_kd r) then
               verbose_print "Not finding KDP field, calculating";;
               calculate_kdp
             else mret true
           else
             verbose_print "Not provided KDP field, calculating";;
             calculate_kdp);
        mret kdp_flag
      else
        msg ← lift (str_concat_r name_rh wstr);
        warnings_warn msg;; mret false
    else
      msg ← lift (str_concat_r name_dr wstr);
      warnings_warn msg;; mret false
  else
    msg ← lift (str_concat_r name_dz wstr);
    warnings_warn msg;; mret false.

Definition check_sounding_for_montonic : M unit :=
  has ← hasattr "snd_T";
  if has : bool then
    T ← getattr_arr "snd_T";
    _ ← lift (mask_item T 0);
    z ← getattr_arr "snd_z";
    '(dummy_z, dummy_T) ← lift (normalize z T);
    setattr "snd_z" (VArr (plain dummy_z));;
    setattr "snd_T" (VArr (plain dummy_T))
  else mret tt.

Definition interpolate_sounding_to_radar : M unit :=
  r ← the_radar;
  radar_z ← get_z_from_radar r;
  setattr "radar_z" (VArr (plain radar_z));;
  setattr "radar_T" VNone;;
  check_sounding_for_montonic;;
  T_flag ← flag "T_flag";
  if T_flag : bool then
    radar_z ← getattr_arr "radar_z";
    snd_z ← getattr_arr "snd_z";
    snd_T ← getattr_arr "snd_T";
    rad_T1d ← call "np.interp" (np_interp (adata radar_z) snd_z snd_T);
    verbose_print "Trying to get radar_T";;
    setattr "radar_T" (VArr (plain rad_T1d))
  else mret tt.

Definition get_sounding (sounding : value) : M unit :=
  (if is_none sounding then
     print "No sounding provided";;
     setattr "T_flag" (VBool false)
   else
     match sounding with
     | VStr path =>
         try_except
           ('(temp, hght) ← call "SkewT.Sounding" (SkewT_Sounding path);
            setattr "snd_T" (VArr temp);;
            setattr "snd_z" (VArr hght))
           (print "Sounding read fail";;
            setattr "T_flag" (VBool false))
     | _ =>
         try_except
           (T ← lift (subscript sounding "T");
            setattr "snd_T" T;;
            z ← lift (subscript sounding "z");
            setattr "snd_z" z)
           (print "Sounding in wrong data format";;
            setattr "T_flag" (VBool false))
     end);;
  interpolate_sounding_to_radar.

Definition do_qc : M unit :=
  name_sdp ← getattr "name_sdp";
  r ← the_radar;
  if negb (in_fields name_sdp r) then
    print "Cannot do QC, no SDP field identified"
  else
    verbose_print "Masking insects and high SDP,";;
    name_dz ← getattr "name_dz"; dz ← extract_unmasked_data name_dz;
    name_dr ← getattr "name_dr"; dr ← extract_unmasked_data name_dr;
    name_sdp ← getattr "name_sdp"; sdp ← extract_unmasked_data name_sdp;
    dz_range ← getattr "dz_range"; dr_thresh ← getattr "dr_thresh";
    bad ← getattr "bad";
    insect_mask ← call "csu_misc.insect_filter"
                    (insect_filter dz dr dz_range dr_thresh bad);
    thresh_sdp ← getattr "thresh_sdp";
    sdp_mask ← call "csu_misc.differential_phase_filter"
                 (differential_phase_filter sdp thresh_sdp);
    new_mask ← lift (logical_or insect_mask sdp_mask);
    let dz_qc := dz in
    bad ← getattr "bad"; b ← lift (as_num bad);
    dz_qc ← lift (assign_where dz_qc new_mask b);
    verbose_print "Despeckling";;
    bad ← getattr "bad"; speckle ← getattr "speckle";
    mask_ds ← call "csu_misc.despeckle" (despeckle dz_qc bad speckle);
    final_mask ← lift (logical_or new_mask mask_ds);
    r ← the_radar; name_dz ← getattr "name_dz";
    f ← lift (get_field name_dz r);
    data ← lift (set_mask (f_data f) (Some final_mask));
    name ← lift (match name_dz with VStr s => Ok s | _ => Raise KeyError end);
    setattr "radar"
      (VRadar (add_field name
                 (mk_field data (f_units f) (f_long_name f) (f_standard_name f)
                           (f_FillValue f)) r)).

Definition get_hid : M unit :=
  dz ← field_data "name_dz";
  dr ← field_data "name_dr";
  kd ← field_data "name_kd";
  rh ← field_data "name_rh";
  name_ld ← getattr "name_ld";
  ld ← (if negb (is_none name_ld) then a ← field_data "name_ld"; mret (Some a)
        else mret None);
  winter ← flag "winter_flag";
  if negb winter then
    T_flag ← getattr "T_flag"; band ← getattr "band";
    fhc_method ← getattr "fhc_method"; radar_T ← getattr "radar_T";
    verbose ← getattr "verbose"; T_factor ← getattr "T_factor";
    fhc_weights ← getattr "fhc_weights";
    scores ← call "csu_fhc.csu_fhc_summer"
               (csu_fhc_summer dz dr rh kd ld T_flag band fhc_method radar_T
                               verbose T_factor fhc_weights);
    fh ← lift (argmax_axis0_plus1 scores);
    name_fhc ← getattr "name_fhc";
    add_hid_field (plain fh) name_fhc
  else print "Winter HID not enabled yet, sorry!".

Definition get_precip_rate (ice_flag rain_method : value) : M unit :=
  dz ← field_data "name_dz";
  dr ← field_data "name_dr";
  kd ← field_data "name_kd";
  winter ← flag "winter_flag";
  if negb winter then
    '(rain, method) ←
      (if eq_str rain_method "hidro" then
         fhc ← field_data "name_fhc";
         call "csu_blended_rain.csu_hidro_rain" (csu_hidro_rain dz dr kd fhc)
       else
         no_ice ← lift (negb <$> truthy ice_flag);
         if no_ice : bool then
           call "csu_blended_rain.calc_blended_rain" (calc_blended_rain dz dr kd)
         else
           '(rain, method, zdp, fi) ←
             call "csu_blended_rain.calc_blended_rain"
                  (calc_blended_rain_ice dz dr kd ice_flag);
           add_field_to_radar_object zdp (VStr "ZDP")
             "dB" "Difference Reflectivity" "Difference Reflectivity";;
           add_field_to_radar_object fi (VStr "FI")
             "" "Ice Fraction" "Ice Fraction";;
           mret (rain, method));
    add_field_to_radar_object rain (VStr "rain")
      "mm h-1" "Rainfall Rate" "Rainfall Rate";;
    add_field_to_radar_object method (VStr "method")
      "" "Rainfall Method" "Rainfall Method"
  else print "Winter precip not enabled yet, sorry!".

Definition get_dsd : M unit :=
  dz ← field_data "name_dz";
  dr ← field_data "name_dr";
  kd ← field_data "name_kd";
  band ← getattr "band";
  '(d0, Nw, mu) ← call "csu_dsd.calc_dsd" (calc_dsd dz dr kd band);
  add_field_to_radar_object d0 (VStr "D0")
    "mm" "Median Volume Diameter" "Median Volume Diameter";;
  add_field_to_radar_object Nw (VStr "NW")
    "mm-1 m-3" "Normalized Intercept Parameter" "Normalized Intercept Parameter";;
  add_field_to_radar_object mu (VStr "MU") " " "Mu" "Mu".

Definition get_liquid_and_frozen_mass : M unit :=
  dz ← field_data "name_dz";
  dr ← field_data "name_dr";
  radar_z ← getattr_arr "radar_z";
  radar_T ← getattr "radar_T";
  '(mw, mi) ← call "csu_liquid_ice_mass.calc_liquid_ice_mass"
                (calc_liquid_ice_mass dz dr
                   (map (fun z => fdiv z 1000) (adata radar_z)) radar_T);
  add_field_to_radar_object mw (VStr "MW")
    "g m-3" "Liquid Water Mass" "Liquid Water Mass";;
  add_field_to_radar_object mi (VStr "MI")
    "g m-3" "Ice Water Mass" "Ice Water Mass".

(** [kwargs[k]] *)
Definition kw (kwargs : gmap string value) (k : string) : M value :=
  lift (match kwargs !! k with Some v => Ok v | None => Raise KeyError end).

(** [if kwargs[k]:] *)
Definition kw_flag (kwargs : gmap string value) (k : string) : M bool :=
  v ← kw kwargs k; lift (truthy v).

(** [self.attr = kwargs[k]] *)
Definition store (kwargs : gmap string value) (attr k : string) : M unit :=
  v ← kw kwargs k; setattr attr v.

Definition when (b : bool) (m : M unit) : M unit := if b then m else mret tt.

(** [DualPolRetrieval.__init__(self, radar, **kwargs)] *)
Definition init (radar : value) (kwargs : gmap string value) : M unit :=
  let kwargs := check_kwargs kwargs DEFAULT_KW in
  store kwargs "verbose" "verbose";;
  ok ← do_radar_check radar;
  if negb ok then mret tt else
  store kwargs "name_dz" "dz";;
  store kwargs "name_dr" "dr";;
  store kwargs "name_kd" "kd";;
  store kwargs "name_rh" "rh";;
  store kwargs "name_ld" "ld";;
  store kwargs "name_dp" "dp";;
  store kwargs "kdp_method" "kdp_method";;
  store kwargs "bad" "bad";;
  store kwargs "thresh_sdp" "thresh_sdp";;
  store kwargs "gs" "gs";;
  store kwargs "name_sdp" "name_sdp";;
  store kwargs "kdp_window" "kdp_window";;
  ok ← do_name_check;
  if negb ok then mret tt else
  (* Get sounding info *)
  store kwargs "T_flag" "use_temp";;
  store kwargs "T_factor" "fhc_T_factor";;
  snd ← kw kwargs "sounding";
  get_sounding snd;;
  store kwargs "winter_flag" "winter";;
  (* Do QC *)
  qc ← kw_flag kwargs "qc_flag";
  when qc
    (verbose_print "Performing QC";;
     store kwargs "dz_range" "dz_range";;
     store kwargs "dr_thresh" "thresh_dr";;
     store kwargs "speckle" "speckle";;
     do_qc);;
  (* Do FHC *)
  store kwargs "name_fhc" "name_fhc";;
  fhc ← kw_flag kwargs "fhc_flag";
  when fhc
    (verbose_print "Performing FHC";;
     store kwargs "fhc_weights" "fhc_weights";;
     store kwargs "fhc_method" "fhc_method";;
     store kwargs "band" "band";;
     get_hid);;
  (* Other precip retrievals *)
  precip ← kw_flag kwargs "precip_flag";
  when precip
    (verbose_print "Performing precip rate calculations";;
     ice_flag ← kw kwargs "ice_flag";
     rain_method ← kw kwargs "rain_method";
     get_precip_rate ice_flag rain_method);;
  dsd ← kw_flag kwargs "dsd_flag";
  when dsd
    (verbose_print "Performing DSD calculations";;
     get_dsd);;
  liquid_ice ← kw_flag kwargs "liquid_ice_flag";
  when liquid_ice
    (verbose_print "Performing mass calculations";;
     get_liquid_and_frozen_mass).

(** Constructing an engine: [DualPolRetrieval(radar, **kwargs)] on a fresh
    object. *)
Definition construct (radar : value) (kwargs : gmap string value) : outcome unit :=
  init radar kwargs (mk_state ∅ []).

End Methods.

(** ** Observations used in the statements *)

(** The volume the engine holds, and a field of it *)
Definition radar_of (s : pystate) : option Radar :=
  match self s !! "radar" with Some (VRadar r) => Some r | _ => None end.

Definition field_of (s : pystate) (name : string) : option Field :=
  r ← radar_of s; fields r !! name.

(** The state after [self.radar.add_field(name, dic, replace_existing=True)] *)
Definition with_field (s : pystate) (r : Radar) (name : string) (dic : Field) : pystate :=
  mk_state (<["radar" := VRadar (add_field name dic r)]> (self s)) (log s).

(** The array and fill value [add_field_to_radar_object] stores for a raw
    result, given the base reflectivity field and the sentinel. *)
Definition commit_value (base : Field) (bad : Z) (raw : ndarray) : result (ndarray * Z) :=
  if hasattr_mask (f_data base) then
    m ← get_mask (f_data base);
    mf ← set_mask (asanyarray raw) m;
    match f_FillValue base with
    | Some fv => Ok (mf, fv)
    | None => Raise KeyError
    end
  else Ok (asanyarray raw, bad).

Definition all_clear (m : list bool) : Prop := Forall (fun b => b = false) m.

(** The state a run ends in, returned or raised *)
Definition final_state {A} (o : outcome A) : pystate :=
  match o with Return _ s => s | Throw _ s => s end.

Definition raises {A} (o : outcome A) : Prop := exists e s, o = Throw e s.

Definition is_call (e : event) : bool :=
  match e with Call _ => true | _ => false end.

(** The masking propagation rule, as [add_field_to_radar_object] applies it
    to the raw array [raw] while [base] is the reflectivity field: the
    samples are the raw ones; under a base field with a mask the stored mask
    is the base field's, gate for gate, and the fill value the base
    field's; under a base field without one the array is stored as it came
    and the fill value is the sentinel. *)
Definition masking_rule (base : Field) (bad : Z) (raw : ndarray) (F : Field) : Prop :=
  adata (f_data F) = adata raw /\
  if hasattr_mask (f_data base)
  then getmaskarray (f_data F) = getmaskarray (f_data base)
       /\ f_FillValue F = f_FillValue base
  else f_data F = asanyarray raw /\ f_FillValue F = Some bad.

(** What the KDP fallback leaves behind: the derived name bound to
    [name_kd], and the three outputs of the estimator committed under the
    masking rule, KDP under ['KDP_' + method], the filtered phase under
    ['FDP_' + method] and the phase-noise standard deviation under
    [name_sdp]. *)
Definition kdp_committed (s' : pystate) (method name_sdp : string)
    (base : Field) (bad : Z) (kdp fdp sdp : ndarray) : Prop :=
  self s' !! "name_kd" = Some (VStr ("KDP_" +:+ method)) /\
  Call "csu_kdp.calc_kdp_bringi" ∈ log s' /\
  (exists F, field_of s' ("KDP_" +:+ method) = Some F /\
             masking_rule base bad kdp F /\ f_standard_name F = "KDP") /\
  (exists F, field_of s' ("FDP_" +:+ method) = Some F /\
             masking_rule base bad fdp F) /\
  (exists F, field_of s' name_sdp = Some F /\ masking_rule base bad sdp F).

(** The attributes [__init__] has bound when it reaches the name check. *)
Definition bound_names (ss : gmap string value) (r : Radar)
    (verbose dz dr kd rh ld dp method bad thsd gs nsdp window : value)
  : gmap string value :=
  <["kdp_window" := window]> (<["name_sdp" := nsdp]> (<["gs" := gs]>
  (<["thresh_sdp" := thsd]> (<["bad" := bad]> (<["kdp_method" := method]>
  (<["name_dp" := dp]> (<["name_ld" := ld]> (<["name_rh" := rh]>
  (<["name_kd" := kd]> (<["name_dr" := dr]> (<["name_dz" := dz]>
  (<["radar" := VRadar r]> (<["verbose" := verbose]> ss))))))))))))).

(** No path to specific differential phase: the KDP name is [None] or not a
    field of the volume, and so is the differential-phase name. *)
Definition kdp_unavailable (kd dp : value) (r : Radar) : bool :=
  (is_none kd || negb (in_fields kd r)) && (is_none dp || negb (in_fields dp r)).

(** A mandatory field is missing from the volume. *)
Definition required_missing (dz dr rh kd dp : value) (r : Radar) : bool :=
  negb (in_fields dz r) || negb (in_fields dr r) || negb (in_fields rh r)
  || kdp_unavailable kd dp r.

(** A sounding argument [get_sounding] gives up on: [None], a file SkewT
    cannot read, or an object without an entry ['T']. *)
Definition sounding_unusable `{Externals} (snd : value) : bool :=
  match snd with
  | VNone => true
  | VStr path => match SkewT_Sounding path with Ok _ => false | Raise _ => true end
  | VDict d => match assoc "T" d with Some _ => false | None => true end
  | _ => true
  end.

(** ** Sample volumes, soundings and stand-ins for the external algorithms *)

Definition zeros (l : list Z) : list Z := map (fun _ => 0%Z) l.

(** Stand-ins of the right shape for the external libraries: every array
    they return has the shape of the reflectivity handed in. *)
Definition stub_tools : Externals := {|
  pyart_io_read := fun _ => Raise IOError;
  radar_coords_to_cart := fun sr az el => Ok (sr, az, el);
  SkewT_Sounding := fun path =>
    if String.eqb path "sounding.txt"
    then Ok (mk_array [20; 10; 0]%Z (MaskArr [false; false; false]),
             mk_array [100; 1500; 3000]%Z (MaskArr [false; false; false]))
    else Raise IOError;
  np_interp := fun x _ _ => Ok (zeros x);
  fdiv := Z.div;
  calc_kdp_bringi := fun dp dz _ _ _ _ => Ok (plain (zeros dz), plain dp, plain (zeros dz));
  insect_filter := fun dz dr _ _ _ => Ok (zip_with (fun _ x => (x >? 3)%Z) dz dr);
  differential_phase_filter := fun sdp _ => Ok (map (fun x => (x >? 12)%Z) sdp);
  despeckle := fun dz _ _ => Ok (map (fun _ => false) dz);
  csu_fhc_summer := fun dz _ _ _ _ _ _ _ _ _ _ _ =>
    Ok [zeros (adata dz); map (fun _ => 1%Z) (adata dz)];
  csu_hidro_rain := fun dz _ _ _ => Ok (plain (zeros (adata dz)), plain (zeros (adata dz)));
  calc_blended_rain := fun dz _ _ => Ok (plain (zeros (adata dz)), plain (zeros (adata dz)));
  calc_blended_rain_ice := fun dz _ _ _ =>
    Ok (plain (zeros (adata dz)), plain (zeros (adata dz)),
        plain (zeros (adata dz)), plain (zeros (adata dz)));
  calc_dsd := fun dz _ _ _ =>
    Ok (plain (zeros (adata dz)), plain (zeros (adata dz)), plain (zeros (adata dz)));
  calc_liquid_ice_mass := fun dz _ _ _ =>
    Ok (plain (zeros (adata dz)), plain (zeros (adata dz)));
  DEFAULT_WEIGHTS := VNone;
  DEFAULT_DZ_RANGE := VPairs [];
  DEFAULT_DR_THRESH := VNums []
|}.

Definition sample_field (a : ndarray) (fill : option Z) : Field :=
  mk_field a "" "" "" fill.

Definition sample_radar (flds : list (string * Field)) : Radar :=
  mk_radar (list_to_map flds) [150; 300]%Z [0]%Z [1]%Z 200%Z.

(** One ray of two gates; the second reflectivity gate is masked. *)
Definition dz_masked : Field :=
  sample_field (mk_array [30; 12]%Z (MaskArr [false; true])) (Some (-9999)%Z).
(** The same reflectivity held as a plain ndarray. *)
Definition dz_plain : Field := sample_field (plain [30; 12]%Z) None.
Definition dr_field : Field := sample_field (plain [1; 5]%Z) None.
Definition rh_field : Field := sample_field (plain [98; 97]%Z) None.
Definition kd_field : Field := sample_field (plain [0; 1]%Z) None.
Definition ph_field : Field := sample_field (plain [10; 40]%Z) None.
Definition sd_field : Field := sample_field (plain [20; 5]%Z) None.
Definition fh_field : Field := sample_field (plain [2; 2]%Z) None.

Definition vol_masked : Radar :=
  sample_radar [("DZ", dz_masked); ("DR", dr_field); ("RH", rh_field);
                ("KD", kd_field); ("PH", ph_field); ("SDP_CSU", sd_field)].
Definition vol_plain : Radar :=
  sample_radar [("DZ", dz_plain); ("DR", dr_field); ("RH", rh_field);
                ("KD", kd_field)].
Definition vol_no_dz : Radar :=
  sample_radar [("DR", dr_field); ("RH", rh_field); ("KD", kd_field)].
Definition vol_no_kd : Radar :=
  sample_radar [("DZ", dz_masked); ("DR", dr_field); ("RH", rh_field);
                ("PH", ph_field)].
Definition vol_with_fh : Radar :=
  sample_radar [("DZ", dz_masked); ("DR", dr_field); ("RH", rh_field);
                ("KD", kd_field); ("FH", fh_field)].

(** An engine whose attributes are set as [__init__] sets them for the
    default options, on the volume [r]. *)
Definition engine_with (r : Radar) (kd dp : value) : pystate :=
  mk_state
    (list_to_map
       [ ("verbose", VBool false); ("radar", VRadar r);
         ("name_dz", VStr "DZ"); ("name_dr", VStr "DR"); ("name_kd", kd);
         ("name_rh", VStr "RH"); ("name_ld", VNone); ("name_dp", dp);
         ("kdp_method", VStr "CSU"); ("bad", VNum BAD);
         ("thresh_sdp", VNum DEFAULT_SDP); ("gs", VNum 150);
         ("name_sdp", VStr "SDP_CSU"); ("kdp_window", VNum 3);
         ("T_flag", VBool false); ("T_factor", VNum 1);
         ("radar_z", VArr (plain [150; 300]%Z)); ("radar_T", VNone);
         ("winter_flag", VBool false); ("name_fhc", VStr "FH");
         ("dz_range", VPairs []); ("dr_thresh", VNums []); ("speckle", VNum 4) ])
    [].

Definition engine_on (r : Radar) : pystate := engine_with r (VStr "KD") VNone.

(** A sounding as SkewT delivers it, and the profile normalisation leaves. *)
Definition ascent_z : ndarray := mk_array [100; 1500; 3000]%Z (MaskArr [false; false; false]).
Definition ascent_T : ndarray := mk_array [20; 10; 0]%Z (MaskArr [false; false; false]).

Definition with_sounding (z T : ndarray) : pystate :=
  mk_state (list_to_map [("snd_z", VArr z); ("snd_T", VArr T)]) [].

(** Keyword arguments of the sample runs *)
Definition kw_hidro_no_fhc_winter : gmap string value :=
  list_to_map [("kd", VStr "KD"); ("rain_method", VStr "hidro");
               ("fhc_flag", VBool false); ("winter", VBool true);
               ("dsd_flag", VBool false); ("liquid_ice_flag", VBool false)].
Definition kw_hidro_no_fhc : gmap string value :=
  list_to_map [("kd", VStr "KD"); ("rain_method", VStr "hidro");
               ("fhc_flag", VBool false);
               ("dsd_flag", VBool false); ("liquid_ice_flag", VBool false)].
Definition kw_bad_sounding : gmap string value :=
  list_to_map [("kd", VStr "KD"); ("sounding", VStr "missing.txt")].
Definition kw_with_dp : gmap string value :=
  list_to_map [("dp", VStr "PH")].

(** Stand-ins as above, with a mass algorithm that insists on temperatures. *)
Definition strict_mass_tools : Externals := {|
  pyart_io_read := pyart_io_read (Externals := stub_tools);
  radar_coords_to_cart := radar_coords_to_cart (Externals := stub_tools);
  SkewT_Sounding := SkewT_Sounding (Externals := stub_tools);
  np_interp := np_interp (Externals := stub_tools);
  fdiv := fdiv (Externals := stub_tools);
  calc_kdp_bringi := calc_kdp_bringi (Externals := stub_tools);
  insect_filter := insect_filter (Externals := stub_tools);
  differential_phase_filter := differential_phase_filter (Externals := stub_tools);
  despeckle := despeckle (Externals := stub_tools);
  csu_fhc_summer := csu_fhc_summer (Externals := stub_tools);
  csu_hidro_rain := csu_hidro_rain (Externals := stub_tools);
  calc_blended_rain := calc_blended_rain (Externals := stub_tools);
  calc_blended_rain_ice := calc_blended_rain_ice (Externals := stub_tools);
  calc_dsd := calc_dsd (Externals := stub_tools);
  calc_liquid_ice_mass := fun dz dr z T =>
    if is_none T then Raise TypeError
    else calc_liquid_ice_mass (Externals := stub_tools) dz dr z T;
  DEFAULT_WEIGHTS := VNone;
  DEFAULT_DZ_RANGE := VPairs [];
  DEFAULT_DR_THRESH := VNums []
|}.

(** ** Further definitions used in the statements below *)

From Stdlib Require Import Sorted.

(** [check_kwargs] as the source writes it, a loop over the defaults:
    [for key in default_kw: if key not in kwargs: kwargs[key] = default_kw[key]]. *)
Definition check_kwargs_loop (kwargs default_kw : gmap string value)
  : gmap string value :=
  map_fold (fun key v (acc : gmap string value) =>
              match acc !! key with
              | Some _ => acc
              | None => <[key := v]> acc
              end)
           kwargs default_kw.

(** Heights that never come down: [height[i] >= height[i-1]]. *)
Fixpoint weakly_increasing (l : list Z) : bool :=
  match l with
  | [] => true
  | x :: tl =>
      match tl with
      | [] => true
      | y :: _ => (x <=? y)%Z && weakly_increasing tl
      end
  end.

(** Weakest precondition of a method run from [s]: [Q] on a normal return,
    [E] on a raise. *)
Definition wp {A} (m : M A) (Q : A -> pystate -> Prop) (E : exn -> pystate -> Prop)
    (s : pystate) : Prop :=
  match m s with
  | Return a s' => Q a s'
  | Throw e s' => E e s'
  end.

(** The fields of the volume other than [name] are the same in [s'] as
    in [s]. *)
Definition other_fields_kept (s s' : pystate) (name : string) : Prop :=
  forall n, n <> name -> field_of s' n = field_of s n.

(** The attributes other than [self.radar] are the same in [s'] as in [s]. *)
Definition other_attrs_kept (s s' : pystate) : Prop :=
  forall k, k <> "radar" -> self s' !! k = self s !! k.

(** [HidColors.__init__(winter)]: the colour lists the object holds;
    a [ListedColormap] is represented by its list of colours. *)
Record HidColors := mk_hidcolors {
  hid_colors : list string;
  cmapmeth : list string;
  cmaphid : list string
}.

Definition HidColors_init (winter : value) : result HidColors :=
  w ← truthy winter;
  if negb w then
    let hid_colors := ["White"; "LightBlue"; "MediumBlue"; "DarkOrange"; "LightPink";
                       "Cyan"; "DarkGray"; "Lime"; "Yellow"; "Red"; "Fuchsia"] in
    Ok (mk_hidcolors hid_colors (take 6 hid_colors) hid_colors)
  else Raise AttributeError.

(** The engine [s] holds the volume [r], and its reflectivity name [dz]
    leads to the field [base], a well-formed array that has a fill value
    when it has a mask; [bad] is the sentinel. *)
Definition bound (s : pystate) (r : Radar) (dz : string) (base : Field) (bad : Z) : Prop :=
  self s !! "radar" = Some (VRadar r) /\
  self s !! "name_dz" = Some (VStr dz) /\
  self s !! "bad" = Some (VNum bad) /\
  fields r !! dz = Some base /\
  wf_array (f_data base) /\
  (hasattr_mask (f_data base) = true -> is_Some (f_FillValue base)).

(** The raw array [raw] has the shape of the field [base]. *)
Definition fits (base : Field) (raw : ndarray) : Prop :=
  wf_array raw /\ length (adata raw) = length (adata (f_data base)).

(** The field [name] of [s'] was committed from [raw] under the masking
    rule, with the given units. *)
Definition committed (s' : pystate) (name : string) (base : Field) (bad : Z)
    (raw : ndarray) (units : string) : Prop :=
  exists F, field_of s' name = Some F /\ masking_rule base bad raw F /\
            f_units F = units.

(** Sample engines for the stages: with the classification options bound,
    and in winter mode. *)
Definition engine_ready (r : Radar) : pystate :=
  mk_state (<["band" := VStr "S"]> (<["fhc_method" := VStr "hybrid"]>
           (<["fhc_weights" := VNone]> (self (engine_on r))))) [].

Definition engine_winter (r : Radar) : pystate :=
  mk_state (<["winter_flag" := VBool true]> (self (engine_on r))) [].

(** * Properties *)

(** ** Running the monad *)

Lemma run_bind {A B} (m : M A) (f : A -> M B) s :
  (m ≫= f) s = match m s with Return a s' => f a s' | Throw e s' => Throw e s' end.
Proof. reflexivity. Qed.

Lemma run_ret {A} (a : A) s : (mret a : M A) s = Return a s.
Proof. reflexivity. Qed.

Lemma run_lift {A} (r : result A) s :
  lift r s = match r with Ok a => Return a s | Raise e => Throw e s end.
Proof. reflexivity. Qed.

Lemma run_emit e s : emit e s = Return tt (mk_state (self s) (log s ++ [e])).
Proof. reflexivity. Qed.

Lemma run_setattr k v s : setattr k v s = Return tt (mk_state (<[k := v]> (self s)) (log s)).
Proof. reflexivity. Qed.

Lemma getattr_ok k v s : self s !! k = Some v -> getattr k s = Return v s.
Proof. intros Hk. unfold getattr. by rewrite Hk. Qed.

Lemma the_radar_ok r s : self s !! "radar" = Some (VRadar r) -> the_radar s = Return r s.
Proof. intros Hr. unfold the_radar. by rewrite run_bind, (getattr_ok _ _ _ Hr). Qed.

Lemma flag_ok k v b s :
  self s !! k = Some v -> truthy v = Ok b -> flag k s = Return b s.
Proof.
  intros Hk Hb. unfold flag. by rewrite run_bind, (getattr_ok _ _ _ Hk), run_lift, Hb.
Qed.

Lemma field_data_ok k name r f s :
  self s !! "radar" = Some (VRadar r) -> self s !! k = Some (VStr name) ->
  fields r !! name = Some f -> field_data k s = Return (f_data f) s.
Proof.
  intros Hr Hk Hf. unfold field_data.
  rewrite run_bind, (the_radar_ok _ _ Hr), run_bind, (getattr_ok _ _ _ Hk).
  rewrite run_bind, run_lift. simpl. by rewrite Hf.
Qed.

#[local] Arguments getattr : simpl never.
#[local] Arguments setattr : simpl never.
#[local] Arguments the_radar : simpl never.
#[local] Arguments field_data : simpl never.
#[local] Arguments flag : simpl never.
#[local] Arguments lift : simpl never.
#[local] Arguments emit : simpl never.

(** ** numpy facts *)

Lemma flat_assign_same (cur src : list bool) :
  length cur = length src -> flat_assign cur src = src.
Proof.
  intros Hlen. unfold flat_assign. destruct src as [|b tl] eqn:E.
  - by destruct cur.
  - rewrite <- E in *. assert (Hn : length src <> 0) by (rewrite E; simpl; lia).
    clear E. rewrite Hlen. apply list_eq. intros i.
    rewrite list_lookup_fmap.
    destruct (decide (i < length src)) as [Hi|Hi].
    + rewrite lookup_seq_lt by done. simpl.
      rewrite Nat.mod_small by done.
      destruct (lookup_lt_is_Some_2 src i Hi) as [x Hx].
      rewrite Hx. f_equal. by apply nth_lookup_Some.
    + rewrite lookup_seq_ge by lia. simpl. symmetry. apply lookup_ge_None. lia.
Qed.

Section Commit.

Lemma commit_ok s r dz base bad raw name u l sn mf fv :
  self s !! "radar" = Some (VRadar r) ->
  self s !! "name_dz" = Some (VStr dz) ->
  self s !! "bad" = Some (VNum bad) ->
  fields r !! dz = Some base ->
  commit_value base bad raw = Ok (mf, fv) ->
  add_field_to_radar_object raw (VStr name) u l sn s
  = Return tt (with_field s r name (mk_field mf u l sn (Some fv))).
Proof.
  intros Hr Hdz Hbad Hbase Hcv.
  unfold add_field_to_radar_object, field_data, the_radar, getattr, lift, mbind, M_bind, mret, M_ret.
  simpl. rewrite Hbad. simpl. rewrite Hr. simpl. rewrite Hdz. simpl. rewrite Hbase. simpl.
  unfold commit_value in Hcv.
  destruct (hasattr_mask (f_data base)).
  - destruct (get_mask (f_data base)) as [m|e] eqn:Em; [|done]. simpl in Hcv.
    destruct (set_mask (asanyarray raw) m) as [mf'|e] eqn:Es; [|done]. simpl in Hcv.
    destruct (f_FillValue base) as [fv'|] eqn:Ef; [|done].
    injection Hcv as -> ->.
    simpl. rewrite Hr. simpl. rewrite Hdz. simpl. rewrite Hbase. simpl. rewrite Ef. simpl.
    rewrite Hr. reflexivity.
  - injection Hcv as <- <-. simpl. rewrite Hr. reflexivity.
Qed.

Lemma commit_value_masked base bad raw fv :
  hasattr_mask (f_data base) = true ->
  f_FillValue base = Some fv ->
  wf_array raw -> wf_array (f_data base) ->
  length (adata raw) = length (adata (f_data base)) ->
  exists mf, commit_value base bad raw = Ok (mf, fv) /\
    adata mf = adata raw /\ getmaskarray mf = getmaskarray (f_data base).
Proof.
  intros Hm Hfv Hwr Hwb Hlen. unfold commit_value. rewrite Hm, Hfv.
  destruct base as [[bd bm] ? ? ? ?]; destruct raw as [rd rm]. simpl in *.
  unfold get_mask, set_mask, asanyarray, getmaskarray, wf_array in *. simpl in *.
  destruct bm as [| |m]; [done| |]; destruct rm as [| |c]; simpl;
    eexists; (split; [reflexivity|]); simpl; split; try reflexivity;
    rewrite ?flat_assign_same by (rewrite ?repeat_length; congruence);
    rewrite ?repeat_length; congruence.
Qed.

Lemma commit_value_unmasked base bad raw :
  hasattr_mask (f_data base) = false ->
  commit_value base bad raw = Ok (asanyarray raw, bad).
Proof. intros Hm. unfold commit_value. by rewrite Hm. Qed.



End Commit.




(** ** Sounding normalisation *)

Lemma keep_from_increasing (Td : list Z) (m : list bool) (zs : list Z) (i : nat) (prev : Z) :
  strictly_increasing (prev :: zs) = true ->
  all_clear m ->
  length m = i + length zs ->
  length Td = i + length zs ->
  keep_from (mk_array Td (MaskArr m)) i prev zs = Ok (zs, drop i Td).
Proof.
  revert i prev. induction zs as [|h tl IH]; intros i prev Hinc Hm Hlm Hlt.
  - simpl in *. rewrite drop_ge by lia. reflexivity.
  - cbn [keep_from].
    assert (Hgt : (h >? prev)%Z = true /\ strictly_increasing (h :: tl) = true).
    { simpl in Hinc. apply andb_true_iff in Hinc. exact Hinc. }
    destruct Hgt as [Hgt Htl]. rewrite Hgt.
    simpl in Hlm, Hlt.
    destruct (lookup_lt_is_Some_2 m i) as [b Hb]; [lia|].
    destruct (lookup_lt_is_Some_2 Td i) as [t Ht]; [lia|].
    assert (b = false) as ->.
    { eapply Forall_lookup_1 in Hm; [|exact Hb]. exact Hm. }
    unfold mask_item, item. simpl. rewrite Hb, Ht. simpl.
    rewrite (IH (S i) h Htl Hm) by lia. simpl.
    rewrite (drop_S _ _ _ Ht). reflexivity.
Qed.

(** What the loop does keep: the temperature of every kept entry is valid,
    and the kept heights are a sublist of the heights walked. *)
Lemma keep_from_valid (T : ndarray) (zs : list Z) (i : nat) (prev : Z) kz kT :
  keep_from T i prev zs = Ok (kz, kT) ->
  length kz = length kT /\ sublist kz zs /\
  Forall (fun t => exists j, adata T !! j = Some t /\ mask_item T j = Ok false) kT.
Proof.
  revert i prev kz kT. induction zs as [|h tl IH]; intros i prev kz kT Hk.
  - injection Hk as <- <-. repeat split; constructor.
  - cbn [keep_from] in Hk.
    destruct (keep_from T (S i) h tl) as [[kz' kT']|e] eqn:Erec.
    2:{ destruct (h >? prev)%Z; [|done].
        destruct (mask_item T i) as [[]|]; simpl in Hk; try done.
        destruct (item T i); done. }
    destruct (IH _ _ _ _ Erec) as (Hlen & Hsub & Hval).
    destruct (h >? prev)%Z.
    + destruct (mask_item T i) as [b|] eqn:Em; [|done]. simpl in Hk.
      destruct b; simpl in Hk.
      * injection Hk as <- <-. repeat split; auto. by apply sublist_cons.
      * unfold item in Hk. destruct (adata T !! i) as [t|] eqn:Et; [|done].
        simpl in Hk. injection Hk as <- <-. repeat split.
        -- simpl. by rewrite Hlen.
        -- by apply sublist_skip.
        -- constructor; [|done]. by exists i.
    + simpl in Hk. injection Hk as <- <-. repeat split; auto. by apply sublist_cons.
Qed.

(** On a sounding as SkewT delivers it (one mask flag and one temperature
    per height, at least one entry) normalisation returns a profile. *)
Lemma keep_from_total (Td : list Z) (m : list bool) (zs : list Z) (i : nat) (prev : Z) :
  length m = i + length zs ->
  length Td = i + length zs ->
  exists kz kT, keep_from (mk_array Td (MaskArr m)) i prev zs = Ok (kz, kT).
Proof.
  revert i prev. induction zs as [|h tl IH]; intros i prev Hlm Hlt.
  - by eexists _, _.
  - cbn [keep_from]. simpl in Hlm, Hlt.
    destruct (lookup_lt_is_Some_2 m i) as [b Hb]; [lia|].
    destruct (lookup_lt_is_Some_2 Td i) as [t Ht]; [lia|].
    destruct (IH (S i) h) as (kz & kT & Hrec); [lia|lia|].
    unfold mask_item, item. simpl. rewrite Hb, Ht, Hrec.
    destruct (h >? prev)%Z; [destruct b|]; simpl; by eexists _, _.
Qed.

Lemma normalize_total (z T : ndarray) (m : list bool) :
  amask T = MaskArr m ->
  adata z <> [] ->
  length m = length (adata z) ->
  length (adata T) = length (adata z) ->
  exists kz kT, normalize z T = Ok (kz, kT).
Proof.
  intros Hmask Hne Hlm Hlt.
  destruct T as [Td Tm]. simpl in *. subst Tm.
  destruct z as [zd zm]. simpl in *.
  destruct zd as [|z0 ztl]; [done|].
  destruct m as [|b0 mtl]; [done|].
  destruct Td as [|t0 Ttl]; [done|].
  destruct (keep_from_total (t0 :: Ttl) (b0 :: mtl) ztl 1 z0) as (kz & kT & Hk);
    [simpl in *; lia|simpl in *; lia|].
  unfold normalize. simpl. rewrite Hk. destruct b0; simpl; by eexists _, _.
Qed.

(** C2, at the failing input.  A balloon that comes down and then rises
    again: the entry at 2000 m is kept because it lies above the entry just
    before it in the file (1000 m, dropped), although it lies below the last
    kept height (5000 m).  The kept heights are not increasing. *)
Theorem normalize_keeps_height_below_last_kept :
  normalize (plain [5000; 1000; 2000]%Z)
            (mk_array [-10; 15; 8]%Z (MaskArr [false; false; false]))
    = Ok ([5000; 2000]%Z, [-10; 8]%Z)
  /\ strictly_increasing [5000; 2000]%Z = false.
Proof. split; reflexivity. Qed.

(** C7 fails as stated: the profile normalisation leaves is a pair of plain
    arrays, and normalising it again stops at [snd_T.mask] with an
    AttributeError. *)
Lemma renormalize_raises :
  exists s1,
    check_sounding_for_montonic (with_sounding ascent_z ascent_T) = Return tt s1 /\
    s1 = with_sounding (plain (adata ascent_z)) (plain (adata ascent_T)) /\
    check_sounding_for_montonic s1 = Throw AttributeError s1.
Proof. eexists. repeat split; vm_compute; reflexivity. Qed.

(** C7, as amended.  For a non-empty profile whose temperatures are a masked
    array with a flag per entry, none of them set, and whose heights are
    strictly increasing, normalisation keeps every entry: the same heights
    and temperatures, in the same order. *)
Theorem normalize_fixpoint (z T : ndarray) (m : list bool) :
  amask T = MaskArr m ->
  all_clear m ->
  adata z <> [] ->
  length m = length (adata z) ->
  length (adata T) = length (adata z) ->
  strictly_increasing (adata z) = true ->
  normalize z T = Ok (adata z, adata T).
Proof.
  intros Hmask Hm Hne Hlm Hlt Hinc.
  destruct T as [Td Tm]. simpl in *. subst Tm.
  destruct z as [zd zm]. simpl in *.
  destruct zd as [|z0 ztl]; [done|].
  destruct m as [|b0 mtl]; [done|].
  destruct Td as [|t0 Ttl]; [done|].
  assert (b0 = false) as -> by (by inversion Hm).
  unfold normalize. simpl.
  rewrite (keep_from_increasing (t0 :: Ttl) (false :: mtl) ztl 1 z0);
    simpl in *; try lia; auto.
Qed.

Lemma normalize_fixpoint_witness :
  normalize ascent_z ascent_T = Ok ([100; 1500; 3000]%Z, [20; 10; 0]%Z).
Proof.
  apply (normalize_fixpoint ascent_z ascent_T [false; false; false]);
    try reflexivity.
  - repeat constructor.
  - discriminate.
Defined.

(** ** Quality control *)

Section QC.
Context `{Externals}.


End QC.


Section QCmask.
Context `{Externals}.

Lemma extract_ok s r bad name f :
  self s !! "radar" = Some (VRadar r) ->
  self s !! "bad" = Some (VNum bad) ->
  fields r !! name = Some f ->
  extract_unmasked_data (VStr name) s = Return (filled bad (f_data f)) s.
Proof.
  intros Hr Hbad Hf.
  unfold extract_unmasked_data, the_radar, getattr, lift, mbind, M_bind, mret, M_ret.
  simpl. rewrite Hr. simpl. rewrite Hf. simpl.
  destruct (hasattr_mask (f_data f)) eqn:Hm.
  - rewrite Hbad. reflexivity.
  - unfold filled. unfold hasattr_mask in Hm. by destruct (amask (f_data f)).
Qed.

Lemma filled_length bad a : wf_array a -> length (filled bad a) = length (adata a).
Proof.
  unfold wf_array, filled. destruct (amask a) as [| |m]; try done.
  intros Hwf. rewrite length_zip_with. lia.
Qed.

Lemma set_mask_same_shape a m :
  hasattr_mask a = true -> wf_array a -> length m = length (adata a) ->
  exists a', set_mask a (Some m) = Ok a' /\ adata a' = adata a /\ getmaskarray a' = m.
Proof.
  unfold hasattr_mask, wf_array, set_mask, getmaskarray.
  destruct (amask a) as [| |c]; [done| |]; intros _ Hwf Hlen;
    eexists; (split; [reflexivity|]); simpl; split; try done;
    apply flat_assign_same; rewrite ?repeat_length; congruence.
Qed.


End QCmask.


(** On a reflectivity held as a plain ndarray the last statement of [do_qc]
    cannot set the attribute, and the stage raises after the filters ran. *)
Example do_qc_on_plain_reflectivity_raises :
  exists s',
    do_qc (H := stub_tools)
      (engine_on (sample_radar [("DZ", dz_plain); ("DR", dr_field);
                                ("RH", rh_field); ("SDP_CSU", sd_field)]))
    = Throw AttributeError s'.
Proof. eexists. vm_compute. reflexivity. Qed.

(** ** Precipitation rate *)

Lemma get_field_absent name r : in_fields name r = false -> get_field name r = Raise KeyError.
Proof.
  unfold in_fields, get_field. destruct name; try done.
  intros Hin. apply bool_decide_eq_false in Hin.
  destruct (fields r !! s) eqn:E; [|done]. exfalso. apply Hin. by eexists.
Qed.

Section Precip.
Context `{Externals}.


End Precip.



(** ** Sounding ingestion and the mass stage *)

Lemma commit_keeps_log raw name u l sn s :
  log (final_state (add_field_to_radar_object raw name u l sn s)) = log s.
Proof.
  unfold add_field_to_radar_object, field_data, the_radar, getattr, setattr, lift,
    mbind, M_bind, mret, M_ret.
  destruct (self s !! "bad") as [bad|] eqn:Hbad; [|reflexivity].
  destruct (self s !! "radar") as [vr|] eqn:Hr; [|reflexivity].
  destruct vr as [| | | | |r| | |]; try reflexivity.
  destruct (self s !! "name_dz") as [ndz|] eqn:Hdz; [|reflexivity].
  destruct (get_field ndz r) as [f|] eqn:Hf; [|reflexivity].
  cbn beta iota.
  destruct (hasattr_mask (f_data f)).
  - destruct (get_mask (f_data f)) as [m|]; [|reflexivity].
    destruct (set_mask (asanyarray raw) m) as [mf|]; [|reflexivity].
    cbn beta iota. rewrite Hr. cbn beta iota. rewrite Hdz. cbn beta iota. rewrite Hf.
    cbn beta iota.
    destruct (f_FillValue f) as [fv|]; [|reflexivity].
    cbn beta iota delta [as_num]. destruct name; try reflexivity.
    cbn beta iota. rewrite Hr. reflexivity.
  - cbn beta iota. destruct (as_num bad); [|reflexivity].
    destruct name; try reflexivity.
    cbn beta iota. rewrite Hr. reflexivity.
Qed.

Section Degraded.
Context `{Externals}.

Lemma get_sounding_gives_up (snd : value) s :
  sounding_unusable snd = true ->
  exists lg,
    get_sounding snd s
    = interpolate_sounding_to_radar
        (mk_state (<["T_flag" := VBool false]> (self s)) (log s ++ lg))
    /\ (exists msg, Print msg ∈ lg).
Proof.
  intros Hu. unfold get_sounding.
  destruct snd as [| | |path| | |d| |]; simpl in Hu;
    unfold try_except, call, print, emit, setattr, lift, mbind, M_bind, mret, M_ret;
    simpl.
  - eexists [_]. split; [reflexivity|]. eexists. apply list_elem_of_singleton. reflexivity.
  - eexists [_]. split; [reflexivity|]. eexists. apply list_elem_of_singleton. reflexivity.
  - eexists [_]. split; [reflexivity|]. eexists. apply list_elem_of_singleton. reflexivity.
  - destruct (SkewT_Sounding path); [done|]. simpl.
    eexists [_; _]. rewrite <- app_assoc. split; [reflexivity|].
    eexists. apply elem_of_cons. right. apply list_elem_of_singleton. reflexivity.
  - eexists [_]. split; [reflexivity|]. eexists. apply list_elem_of_singleton. reflexivity.
  - eexists [_]. split; [reflexivity|]. eexists. apply list_elem_of_singleton. reflexivity.
  - destruct (assoc "T" d); [done|]. simpl.
    eexists [_]. split; [reflexivity|]. eexists. apply list_elem_of_singleton. reflexivity.
  - eexists [_]. split; [reflexivity|]. eexists. apply list_elem_of_singleton. reflexivity.
  - eexists [_]. split; [reflexivity|]. eexists. apply list_elem_of_singleton. reflexivity.
Qed.

Lemma interpolate_without_sounding s r xx yy zz :
  self s !! "radar" = Some (VRadar r) ->
  self s !! "snd_T" = None ->
  self s !! "T_flag" = Some (VBool false) ->
  radar_coords_to_cart
    (map (fun x => fdiv x RNG_MULT) (meshgrid_x (r_range r) (r_azimuth r)))
    (meshgrid_y (r_range r) (r_azimuth r))
    (meshgrid_y (r_range r) (r_elevation r)) = Ok (xx, yy, zz) ->
  interpolate_sounding_to_radar s
  = Return tt
      (mk_state
         (<["radar_T" := VNone]>
            (<["radar_z" := VArr (plain (map (fun z => (z + r_altitude r)%Z) zz))]>
               (self s)))
         (log s ++ [Call "radar_coords_to_cart"])).
Proof.
  intros Hr Hsnd Hflag Hcart.
  unfold interpolate_sounding_to_radar, get_z_from_radar, check_sounding_for_montonic,
    hasattr, flag, call, emit, the_radar, getattr, setattr, lift,
    mbind, M_bind, mret, M_ret.
  simpl. rewrite Hr. simpl. rewrite Hcart. simpl.
  rewrite !lookup_insert_ne by done. rewrite Hsnd. simpl.
  rewrite !lookup_insert_ne by done. rewrite Hflag. reflexivity.
Qed.

(** C6, as amended.  For a sounding argument that is [None], a file SkewT
    cannot read, or an object without an entry ['T'], on an engine that
    holds no earlier sounding, sounding ingestion returns normally with a
    printed notice, temperature use switched off and the per-gate
    temperature grid [None].  The mass stage is then not skipped: it calls
    the external mass algorithm with [T=None], and raises whatever that
    algorithm raises. *)
Theorem unusable_sounding_degrades s r snd xx yy zz dz dr Fdz Fdr :
  self s !! "radar" = Some (VRadar r) ->
  self s !! "snd_T" = None ->
  self s !! "name_dz" = Some (VStr dz) ->
  self s !! "name_dr" = Some (VStr dr) ->
  fields r !! dz = Some Fdz ->
  fields r !! dr = Some Fdr ->
  sounding_unusable snd = true ->
  radar_coords_to_cart
    (map (fun x => fdiv x RNG_MULT) (meshgrid_x (r_range r) (r_azimuth r)))
    (meshgrid_y (r_range r) (r_azimuth r))
    (meshgrid_y (r_range r) (r_elevation r)) = Ok (xx, yy, zz) ->
  exists s1,
    get_sounding snd s = Return tt s1 /\
    self s1 !! "radar_T" = Some VNone /\
    self s1 !! "T_flag" = Some (VBool false) /\
    radar_of s1 = Some r /\
    (exists msg, Print msg ∈ log s1) /\
    Call "csu_liquid_ice_mass.calc_liquid_ice_mass"
      ∈ log (final_state (get_liquid_and_frozen_mass s1)) /\
    (forall e,
       calc_liquid_ice_mass (f_data Fdz) (f_data Fdr)
         (map (fun z => fdiv z 1000) (map (fun z => (z + r_altitude r)%Z) zz)) VNone
         = Raise e ->
       get_liquid_and_frozen_mass s1
       = Throw e (mk_state (self s1)
                    (log s1 ++ [Call "csu_liquid_ice_mass.calc_liquid_ice_mass"]))).
Proof.
  intros Hr Hsnd Hdz Hdr Hfdz Hfdr Hu Hcart.
  destruct (get_sounding_gives_up snd s Hu) as (lg & Hget & msg & Hmsg).
  pose (s1 := mk_state
         (<["radar_T" := VNone]>
            (<["radar_z" := VArr (plain (map (fun z => (z + r_altitude r)%Z) zz))]>
               (<["T_flag" := VBool false]> (self s))))
         ((log s ++ lg) ++ [Call "radar_coords_to_cart"])).
  assert (Hrun1 : get_sounding snd s = Return tt s1).
  { rewrite Hget. rewrite (interpolate_without_sounding _ r xx yy zz); try done; simpl.
    - by rewrite lookup_insert_ne.
    - by rewrite lookup_insert_ne.
    - by rewrite lookup_insert_eq. }
  assert (Hr1 : self s1 !! "radar" = Some (VRadar r)).
  { unfold s1. simpl. by rewrite !lookup_insert_ne by done. }
  assert (Hdz1 : self s1 !! "name_dz" = Some (VStr dz)).
  { unfold s1. simpl. by rewrite !lookup_insert_ne by done. }
  assert (Hdr1 : self s1 !! "name_dr" = Some (VStr dr)).
  { unfold s1. simpl. by rewrite !lookup_insert_ne by done. }
  assert (Hz1 : self s1 !! "radar_z"
                = Some (VArr (plain (map (fun z => (z + r_altitude r)%Z) zz)))).
  { unfold s1. simpl. rewrite lookup_insert_ne by done. by rewrite lookup_insert_eq. }
  assert (HT1 : self s1 !! "radar_T" = Some VNone).
  { unfold s1. simpl. by rewrite lookup_insert_eq. }
  assert (HF1 : self s1 !! "T_flag" = Some (VBool false)).
  { unfold s1. simpl. rewrite !lookup_insert_ne by done. by rewrite lookup_insert_eq. }
  assert (Hlog1 : Print msg ∈ log s1).
  { unfold s1. simpl. rewrite !elem_of_app. auto. }
  clearbody s1.
  exists s1. split; [exact Hrun1|]. split; [exact HT1|]. split; [exact HF1|].
  split. { unfold radar_of. by rewrite Hr1. }
  split. { by exists msg. }
  assert (Hrun : get_liquid_and_frozen_mass s1
    = match calc_liquid_ice_mass (f_data Fdz) (f_data Fdr)
              (map (fun z => fdiv z 1000) (map (fun z => (z + r_altitude r)%Z) zz)) VNone with
      | Ok (mw, mi) =>
          (add_field_to_radar_object mw (VStr "MW")
             "g m-3" "Liquid Water Mass" "Liquid Water Mass";;
           add_field_to_radar_object mi (VStr "MI")
             "g m-3" "Ice Water Mass" "Ice Water Mass")
            (mk_state (self s1)
               (log s1 ++ [Call "csu_liquid_ice_mass.calc_liquid_ice_mass"]))
      | Raise e =>
          Throw e (mk_state (self s1)
                     (log s1 ++ [Call "csu_liquid_ice_mass.calc_liquid_ice_mass"]))
      end).
  { unfold get_liquid_and_frozen_mass.
    rewrite run_bind, (field_data_ok _ _ _ _ _ Hr1 Hdz1 Hfdz).
    rewrite run_bind, (field_data_ok _ _ _ _ _ Hr1 Hdr1 Hfdr).
    unfold getattr_arr, call, emit, getattr, lift, mbind, M_bind, mret, M_ret.
    simpl. rewrite Hz1. simpl. rewrite HT1. simpl.
    destruct (calc_liquid_ice_mass _ _ _ _) as [[mw mi]|e]; reflexivity. }
  split.
  - rewrite Hrun. destruct (calc_liquid_ice_mass _ _ _ _) as [[mw mi]|e].
    + rewrite run_bind.
      pose proof (commit_keeps_log mw (VStr "MW") "g m-3" "Liquid Water Mass"
                    "Liquid Water Mass"
                    (mk_state (self s1)
                       (log s1 ++ [Call "csu_liquid_ice_mass.calc_liquid_ice_mass"])))
        as Hl1.
      destruct (add_field_to_radar_object mw _ _ _ _ _) as [[] s2|e s2]; simpl in Hl1.
      * rewrite commit_keeps_log, Hl1. simpl. rewrite elem_of_app. right.
        by apply list_elem_of_singleton.
      * simpl. rewrite Hl1. simpl. rewrite elem_of_app. right.
        by apply list_elem_of_singleton.
    + simpl. rewrite elem_of_app. right. by apply list_elem_of_singleton.
  - intros e He. rewrite Hrun, He. reflexivity.
Qed.

End Degraded.

Lemma unusable_sounding_degrades_witness :
  exists s1,
    get_sounding (H := stub_tools) (VStr "missing.txt")
      (mk_state (delete "radar_T" (delete "T_flag" (self (engine_on vol_masked)))) [])
      = Return tt s1 /\
    self s1 !! "radar_T" = Some VNone /\
    self s1 !! "T_flag" = Some (VBool false) /\
    radar_of s1 = Some vol_masked /\
    (exists msg, Print msg ∈ log s1) /\
    Call "csu_liquid_ice_mass.calc_liquid_ice_mass"
      ∈ log (final_state (get_liquid_and_frozen_mass (H := stub_tools) s1)) /\
    (forall e,
       calc_liquid_ice_mass (Externals := stub_tools) (f_data dz_masked) (f_data dr_field)
         (map (fun z => fdiv (Externals := stub_tools) z 1000)
              (map (fun z => (z + r_altitude vol_masked)%Z) [1; 1]%Z)) VNone
         = Raise e ->
       get_liquid_and_frozen_mass (H := stub_tools) s1
       = Throw e (mk_state (self s1)
                    (log s1 ++ [Call "csu_liquid_ice_mass.calc_liquid_ice_mass"]))).
Proof.
  apply (unusable_sounding_degrades (H := stub_tools) _ vol_masked (VStr "missing.txt")
           [0; 0]%Z [0; 0]%Z [1; 1]%Z "DZ" "DR" dz_masked dr_field);
    reflexivity.
Defined.

(** C6 fails as stated: after an unreadable sounding file the mass stage is
    not skipped.  With a mass algorithm that accepts a missing temperature,
    construction calls it and commits its output; with one that insists on
    temperatures, construction ends with the exception it raises. *)
Lemma mass_stage_runs_without_temperature :
  (exists s F,
     construct (H := stub_tools) (VRadar vol_masked) kw_bad_sounding = Return tt s /\
     self s !! "radar_T" = Some VNone /\
     last (log s) = Some (Call "csu_liquid_ice_mass.calc_liquid_ice_mass") /\
     field_of s "MW" = Some F) /\
  (exists s,
     construct (H := strict_mass_tools) (VRadar vol_masked) kw_bad_sounding
       = Throw TypeError s /\
     last (log s) = Some (Call "csu_liquid_ice_mass.calc_liquid_ice_mass")).
Proof.
  split.
  - eexists _, _. split; [vm_compute; reflexivity|]. repeat split; vm_compute; reflexivity.
  - eexists. split; [vm_compute; reflexivity|]. vm_compute; reflexivity.
Qed.

(** A sounding object with temperatures but no heights is given up on as
    well, but the temperatures stay on the engine and the monotonicity check
    then fails on the missing heights. *)
Example sounding_without_heights_raises :
  exists s,
    construct (H := stub_tools) (VRadar vol_masked)
      (list_to_map [("kd", VStr "KD");
                    ("sounding", VDict (DCons "T" (VArr ascent_T) DNil))])
    = Throw AttributeError s.
Proof. eexists. vm_compute. reflexivity. Qed.

(** ** The KDP fallback *)

#[local] Arguments add_field_to_radar_object : simpl never.
#[local] Arguments extract_unmasked_data : simpl never.

Section Fallback.
Context `{Externals}.

(** A commit under a base field the raw array fits. *)
Lemma commit_rule s r dz base bad raw name u l sn :
  self s !! "radar" = Some (VRadar r) ->
  self s !! "name_dz" = Some (VStr dz) ->
  self s !! "bad" = Some (VNum bad) ->
  fields r !! dz = Some base ->
  wf_array raw -> wf_array (f_data base) ->
  length (adata raw) = length (adata (f_data base)) ->
  (hasattr_mask (f_data base) = true -> is_Some (f_FillValue base)) ->
  exists mf fv,
    add_field_to_radar_object raw (VStr name) u l sn s
      = Return tt (with_field s r name (mk_field mf u l sn (Some fv))) /\
    masking_rule base bad raw (mk_field mf u l sn (Some fv)).
Proof.
  intros Hr Hdz Hbad Hbase Hwr Hwb Hlen Hfill. unfold masking_rule.
  destruct (hasattr_mask (f_data base)) eqn:Hm.
  - destruct (Hfill eq_refl) as [fv Hfv].
    destruct (commit_value_masked base bad raw fv Hm Hfv Hwr Hwb Hlen)
      as (mf & Hcv & Hdata & Hmask).
    exists mf, fv. split; [by apply (commit_ok s r dz base bad)|]. simpl.
    by rewrite Hfv.
  - exists (asanyarray raw), bad. split.
    + apply (commit_ok s r dz base bad); try done. by apply commit_value_unmasked.
    + simpl. split; [|done]. by destruct raw as [? []].
Qed.

Lemma derived_names_differ m : "FDP_" +:+ m <> "KDP_" +:+ m.
Proof. simpl. discriminate. Qed.

Lemma commit_value_rule base bad raw u l sn :
  wf_array raw -> wf_array (f_data base) ->
  length (adata raw) = length (adata (f_data base)) ->
  (hasattr_mask (f_data base) = true -> is_Some (f_FillValue base)) ->
  exists mf fv,
    commit_value base bad raw = Ok (mf, fv) /\
    masking_rule base bad raw (mk_field mf u l sn (Some fv)).
Proof.
  intros Hwr Hwb Hlen Hfill. unfold masking_rule.
  destruct (hasattr_mask (f_data base)) eqn:Hm.
  - destruct (Hfill eq_refl) as [fv Hfv].
    destruct (commit_value_masked base bad raw fv Hm Hfv Hwr Hwb Hlen)
      as (mf & Hcv & Hdata & Hmask).
    exists mf, fv. split; [done|]. simpl. by rewrite Hfv.
  - exists (asanyarray raw), bad. split; [by apply commit_value_unmasked|].
    simpl. split; [|done]. by destruct raw as [? []].
Qed.

Ltac lk :=
  simpl; repeat (rewrite lookup_insert_eq || rewrite lookup_insert_ne by done); done.

Lemma call_csu_kdp_commits s r dz dp m nsdp base Fdp bad vb gs thsd kdp fdp sdp :
  self s !! "radar" = Some (VRadar r) ->
  self s !! "name_dz" = Some (VStr dz) ->
  self s !! "name_dp" = Some (VStr dp) ->
  self s !! "kdp_method" = Some (VStr m) ->
  self s !! "name_sdp" = Some (VStr nsdp) ->
  self s !! "bad" = Some (VNum bad) ->
  self s !! "verbose" = Some (VBool vb) ->
  self s !! "gs" = Some gs ->
  self s !! "thresh_sdp" = Some thsd ->
  fields r !! dz = Some base ->
  fields r !! dp = Some Fdp ->
  calc_kdp_bringi (filled bad (f_data Fdp)) (filled bad (f_data base))
    (meshgrid_x (map (fun x => fdiv x RNG_MULT) (r_range r)) (r_azimuth r))
    gs thsd (VNum bad) = Ok (kdp, fdp, sdp) ->
  wf_array (f_data base) ->
  (hasattr_mask (f_data base) = true -> is_Some (f_FillValue base)) ->
  wf_array fdp -> wf_array sdp ->
  length (adata fdp) = length (adata (f_data base)) ->
  length (adata sdp) = length (adata (f_data base)) ->
  "FDP_" +:+ m <> dz ->
  exists lg F1 F2,
    call_csu_kdp s
    = Return kdp
        (mk_state
           (<["radar" := VRadar (add_field nsdp F2 (add_field ("FDP_" +:+ m) F1 r))]>
              (<["radar" := VRadar (add_field ("FDP_" +:+ m) F1 r)]>
                 (<["name_fdp" := VStr ("FDP_" +:+ m)]> (self s))))
           (log s ++ lg)) /\
    Call "csu_kdp.calc_kdp_bringi" ∈ lg /\
    masking_rule base bad fdp F1 /\ masking_rule base bad sdp F2.
Proof.
  intros Hr Hdz Hdp Hm Hsdp Hbad Hv Hgs Hth Hbase Hfdp Hcalc Hwb Hfill
         Hwf Hws Hlf Hls Hn2.
  destruct (commit_value_rule base bad fdp "deg" "Filtered Differential Phase"
              "Filtered Differential Phase" Hwf Hwb Hlf Hfill)
    as (mf1 & fv1 & Hc1 & Hrule1).
  destruct (commit_value_rule base bad sdp "deg"
              "Standard Deviation of Differential Phase" "Std Dev Differential Phase"
              Hws Hwb Hls Hfill)
    as (mf2 & fv2 & Hc2 & Hrule2).
  simpl in Hn2.
  unfold call_csu_kdp, verbose_print, flag, call, emit, print,
    the_radar, getattr, setattr, lift, mbind, M_bind, mret, M_ret.
  simpl. rewrite Hv. simpl.
  destruct vb; simpl; eexists _, _, _;
    (split; [|split; [|split; [exact Hrule1|exact Hrule2]]]).
  - rewrite Hdp. simpl. rewrite (extract_ok _ r bad dp Fdp) by done. simpl.
    rewrite Hdz. simpl. rewrite (extract_ok _ r bad dz base) by done. simpl.
    rewrite Hbad. simpl. rewrite Hr. simpl. rewrite Hgs. simpl. rewrite Hth. simpl.
    rewrite Hbad. simpl. rewrite Hcalc. simpl. rewrite Hm. simpl.
    rewrite (commit_ok _ r dz base bad fdp _ _ _ _ mf1 fv1) by lk. simpl.
    rewrite !lookup_insert_ne by done. rewrite Hsdp. simpl.
    rewrite (commit_ok _ (add_field _ _ r) dz base bad sdp _ _ _ _ mf2 fv2) by lk.
    simpl. rewrite <- app_assoc. reflexivity.
  - rewrite elem_of_app, !list_elem_of_singleton. by right.
  - rewrite Hdp. simpl. rewrite (extract_ok _ r bad dp Fdp) by done. simpl.
    rewrite Hdz. simpl. rewrite (extract_ok _ r bad dz base) by done. simpl.
    rewrite Hbad. simpl. rewrite Hr. simpl. rewrite Hgs. simpl. rewrite Hth. simpl.
    rewrite Hbad. simpl. rewrite Hcalc. simpl. rewrite Hm. simpl.
    rewrite (commit_ok _ r dz base bad fdp _ _ _ _ mf1 fv1) by lk. simpl.
    rewrite !lookup_insert_ne by done. rewrite Hsdp. simpl.
    rewrite (commit_ok _ (add_field _ _ r) dz base bad sdp _ _ _ _ mf2 fv2) by lk.
    simpl. reflexivity.
  - by apply list_elem_of_singleton.
Qed.

#[local] Arguments call_csu_kdp : simpl never.

Lemma calculate_kdp_commits s r dz dp m nsdp base Fdp bad vb gs thsd kdp fdp sdp :
  self s !! "radar" = Some (VRadar r) ->
  self s !! "name_dz" = Some (VStr dz) ->
  self s !! "name_dp" = Some (VStr dp) ->
  self s !! "kdp_method" = Some (VStr m) ->
  self s !! "name_sdp" = Some (VStr nsdp) ->
  self s !! "bad" = Some (VNum bad) ->
  self s !! "verbose" = Some (VBool vb) ->
  self s !! "gs" = Some gs ->
  self s !! "thresh_sdp" = Some thsd ->
  fields r !! dz = Some base ->
  fields r !! dp = Some Fdp ->
  upper_string m = "CSU" ->
  calc_kdp_bringi (filled bad (f_data Fdp)) (filled bad (f_data base))
    (meshgrid_x (map (fun x => fdiv x RNG_MULT) (r_range r)) (r_azimuth r))
    gs thsd (VNum bad) = Ok (kdp, fdp, sdp) ->
  wf_array (f_data base) ->
  (hasattr_mask (f_data base) = true -> is_Some (f_FillValue base)) ->
  wf_array kdp -> wf_array fdp -> wf_array sdp ->
  length (adata kdp) = length (adata (f_data base)) ->
  length (adata fdp) = length (adata (f_data base)) ->
  length (adata sdp) = length (adata (f_data base)) ->
  nsdp <> dz -> "FDP_" +:+ m <> dz ->
  nsdp <> "KDP_" +:+ m -> nsdp <> "FDP_" +:+ m ->
  exists s', calculate_kdp s = Return true s' /\
             kdp_committed s' m nsdp base bad kdp fdp sdp.
Proof.
  intros Hr Hdz Hdp Hm Hsdp Hbad Hv Hgs Hth Hbase Hfdp Hup Hcalc Hwb Hfill
         Hwk Hwf Hws Hlk Hlf Hls Hn1 Hn2 Hn3 Hn4.
  destruct (call_csu_kdp_commits s r dz dp m nsdp base Fdp bad vb gs thsd kdp fdp sdp)
    as (lg & F1 & F2 & Hcall & Hlg & Hrule1 & Hrule2); try done.
  destruct (commit_value_rule base bad kdp "deg km-1" "Specific Differential Phase"
              "KDP" Hwk Hwb Hlk Hfill)
    as (mf3 & fv3 & Hc3 & Hrule3).
  pose proof (derived_names_differ m) as Hnfk.
  simpl in Hn2, Hn3, Hn4, Hnfk, Hcall.
  eexists. split.
  - unfold calculate_kdp, the_radar, getattr, setattr, lift, mbind, M_bind, mret, M_ret.
    simpl. rewrite Hdp. simpl. rewrite Hr. simpl.
    rewrite Hfdp. simpl. rewrite Hm. simpl. rewrite Hup. simpl.
    rewrite Hcall. simpl.
    rewrite !lookup_insert_ne by done. rewrite Hm. simpl.
    rewrite (commit_ok _ (add_field nsdp F2 (add_field _ F1 r)) dz base bad kdp
               _ _ _ _ mf3 fv3) by lk.
    reflexivity.
  - unfold kdp_committed, with_field, field_of, radar_of. simpl.
    rewrite lookup_insert_eq. simpl.
    split. { rewrite lookup_insert_ne by done. by rewrite lookup_insert_eq. }
    split. { rewrite elem_of_app. by right. }
    split. { eexists. rewrite lookup_insert_eq. by split. }
    split.
    + exists F1. rewrite lookup_insert_ne by done.
      rewrite lookup_insert_ne by done. rewrite lookup_insert_eq. by split.
    + exists F2. rewrite lookup_insert_ne by done. rewrite lookup_insert_eq. by split.
Qed.

#[local] Arguments calculate_kdp : simpl never.



End Fallback.


(** The same fallback inside a whole construction with the default options
    and [dp='PH']: the derived field is there when construction returns. *)
Example construct_computes_kdp :
  exists s F,
    construct (H := stub_tools) (VRadar vol_no_kd) kw_with_dp = Return tt s /\
    self s !! "name_kd" = Some (VStr "KDP_CSU") /\
    field_of s "KDP_CSU" = Some F /\
    getmaskarray (f_data F) = getmaskarray (f_data dz_masked).
Proof.
  eexists _, _. split; [vm_compute; reflexivity|]. repeat split; vm_compute; reflexivity.
Qed.

(** With a method name other than 'CSU' no estimator runs, and the commit
    of the value that was never computed raises. *)
Example unknown_kdp_method_raises :
  exists s,
    construct (H := stub_tools) (VRadar vol_no_kd)
      (list_to_map [("dp", VStr "PH"); ("kdp_method", VStr "Bringi")])
    = Throw UnboundLocalError s.
Proof. eexists. vm_compute. reflexivity. Qed.

(** ** Missing mandatory fields *)

#[local] Arguments do_name_check : simpl never.
#[local] Arguments get_sounding : simpl never.
#[local] Arguments do_qc : simpl never.
#[local] Arguments get_hid : simpl never.
#[local] Arguments get_precip_rate : simpl never.
#[local] Arguments get_dsd : simpl never.
#[local] Arguments get_liquid_and_frozen_mass : simpl never.
#[local] Arguments when : simpl never.

Section Missing.
Context `{Externals}.

Lemma calculate_kdp_without_phase mp lg r dp :
  mp !! "name_dp" = Some dp ->
  mp !! "radar" = Some (VRadar r) ->
  is_none dp || negb (in_fields dp r) = true ->
  calculate_kdp (mk_state mp lg)
  = Return false
      (mk_state mp (lg ++ [Warn "Missing differential phase and KDP fields, failing ..."])).
Proof.
  intros Hdp Hr Hno.
  unfold calculate_kdp, warnings_warn, emit, the_radar, getattr, lift,
    mbind, M_bind, mret, M_ret.
  simpl. rewrite Hdp. simpl.
  destruct (is_none dp); simpl; [reflexivity|].
  rewrite Hr. simpl. simpl in Hno. apply negb_true_iff in Hno. rewrite Hno. reflexivity.
Qed.

Lemma do_name_check_missing ss sl r dz dr rh ld kd dp vb :
  ss !! "radar" = Some (VRadar r) ->
  ss !! "name_dz" = Some (VStr dz) ->
  ss !! "name_dr" = Some (VStr dr) ->
  ss !! "name_rh" = Some (VStr rh) ->
  ss !! "name_ld" = Some ld ->
  ss !! "name_kd" = Some kd ->
  ss !! "name_dp" = Some dp ->
  ss !! "verbose" = Some (VBool vb) ->
  required_missing (VStr dz) (VStr dr) (VStr rh) kd dp r = true ->
  exists mp lg w,
    do_name_check (mk_state ss sl) = Return false (mk_state mp (sl ++ lg ++ [Warn w])) /\
    (mp = ss \/ mp = <["name_ld" := VNone]> ss) /\
    Forall (fun e => is_call e = false) lg.
Proof.
  intros Hr Hdz Hdr Hrh Hld Hkd Hdp Hv Hmiss.
  unfold required_missing, kdp_unavailable in Hmiss.
  unfold do_name_check, verbose_print, flag, warnings_warn, emit, print,
    the_radar, getattr, setattr, lift, mbind, M_bind, mret, M_ret.
  simpl. rewrite Hr. simpl. rewrite Hdz. simpl.
  destruct (in_fields (VStr dz) r) eqn:Edz; simpl in Edz; rewrite Edz; simpl.
  2:{ exists ss, [], (dz +:+ " field not in radar object, check variable names").
      repeat split; auto. }
  rewrite Hdr. simpl.
  destruct (in_fields (VStr dr) r) eqn:Edr; simpl in Edr; rewrite Edr; simpl.
  2:{ exists ss, [], (dr +:+ " field not in radar object, check variable names").
      repeat split; auto. }
  rewrite Hrh. simpl.
  destruct (in_fields (VStr rh) r) eqn:Erh; simpl in Erh; rewrite Erh; simpl.
  2:{ exists ss, [], (rh +:+ " field not in radar object, check variable names").
      repeat split; auto. }
  simpl in Hmiss. apply andb_true_iff in Hmiss. destruct Hmiss as [Hnokd Hnodp].
  assert (Hkd' : is_none kd = true \/ (is_none kd = false /\ in_fields kd r = false)).
  { destruct (is_none kd); [by left|right]. split; [done|].
    simpl in Hnokd. by apply negb_true_iff. }
  rewrite Hld. simpl.
  destruct (is_none ld) eqn:Eld; simpl;
    [|destruct (in_fields ld r) eqn:Einld; simpl];
    rewrite ?Hv; simpl; destruct vb; simpl;
    rewrite ?lookup_insert_ne by done; rewrite Hkd; simpl;
    (destruct Hkd' as [Ekd | [Ekd Einkd]]; rewrite Ekd; simpl;
     rewrite ?Einkd; simpl; rewrite ?lookup_insert_ne by done; rewrite Hv; simpl);
    match goal with
    | |- context [calculate_kdp (mk_state ?mp ?lg)] =>
        rewrite (calculate_kdp_without_phase mp lg r dp)
          by (rewrite ?lookup_insert_ne by done; done)
    end;
    match goal with
    | |- context [Return false (mk_state ?mp (sl ++ ?w))] =>
        exists mp, (removelast w), "Missing differential phase and KDP fields, failing ..."
    | |- context [Return false (mk_state ?mp ((sl ++ ?a) ++ ?w))] =>
        exists mp, a, "Missing differential phase and KDP fields, failing ..."
    | |- context [Return false (mk_state ?mp (((sl ++ ?a) ++ ?b) ++ ?w))] =>
        exists mp, (a ++ b), "Missing differential phase and KDP fields, failing ..."
    end; simpl; rewrite <- ?app_assoc; simpl;
    (split; [reflexivity|split; [auto|repeat constructor]]).
Qed.

Lemma default_kw_present (kwargs : gmap string value) k :
  is_Some (DEFAULT_KW !! k) -> is_Some (check_kwargs kwargs DEFAULT_KW !! k).
Proof.
  intros Hk. unfold check_kwargs. apply lookup_union_is_Some. by right.
Qed.

Lemma init_stops_at_name_check ss sl r kwargs dz dr rh kd dp ld vb :
  let K := check_kwargs kwargs DEFAULT_KW in
  K !! "dz" = Some (VStr dz) ->
  K !! "dr" = Some (VStr dr) ->
  K !! "rh" = Some (VStr rh) ->
  K !! "kd" = Some kd ->
  K !! "dp" = Some dp ->
  K !! "ld" = Some ld ->
  K !! "verbose" = Some (VBool vb) ->
  required_missing (VStr dz) (VStr dr) (VStr rh) kd dp r = true ->
  exists method bad thsd gs nsdp window ld' lg w,
    init (VRadar r) kwargs (mk_state ss sl)
    = Return tt
        (mk_state
           (bound_names ss r (VBool vb) (VStr dz) (VStr dr) kd (VStr rh) ld' dp
                        method bad thsd gs nsdp window)
           (sl ++ lg ++ [Warn w])) /\
    Forall (fun e => is_call e = false) lg.
Proof.
  intros K Hdz Hdr Hrh Hkd Hdp Hld Hv Hmiss.
  destruct (default_kw_present kwargs "kdp_method") as [method Hmethod];
    [by eexists|].
  destruct (default_kw_present kwargs "bad") as [bad Hbad]; [by eexists|].
  destruct (default_kw_present kwargs "thresh_sdp") as [thsd Hthsd]; [by eexists|].
  destruct (default_kw_present kwargs "gs") as [gs Hgs]; [by eexists|].
  destruct (default_kw_present kwargs "name_sdp") as [nsdp Hnsdp]; [by eexists|].
  destruct (default_kw_present kwargs "kdp_window") as [window Hwindow]; [by eexists|].
  fold K in Hmethod, Hbad, Hthsd, Hgs, Hnsdp, Hwindow.
  destruct (do_name_check_missing
              (bound_names ss r (VBool vb) (VStr dz) (VStr dr) kd (VStr rh) ld dp
                           method bad thsd gs nsdp window)
              sl r dz dr rh ld kd dp vb)
    as (mp & lg & w & Hrun & Hmp & Hlg);
    try (unfold bound_names;
         repeat (rewrite lookup_insert_eq || rewrite lookup_insert_ne by done); done).
  unfold init. fold K. clearbody K.
  unfold store, kw, do_radar_check, try_except, the_radar, getattr, setattr, lift,
    mbind, M_bind, mret, M_ret.
  simpl. rewrite Hv. simpl. rewrite lookup_insert_eq. simpl.
  rewrite Hdz. simpl. rewrite Hdr. simpl. rewrite Hkd. simpl. rewrite Hrh. simpl.
  rewrite Hld. simpl. rewrite Hdp. simpl. rewrite Hmethod. simpl. rewrite Hbad. simpl.
  rewrite Hthsd. simpl. rewrite Hgs. simpl. rewrite Hnsdp. simpl. rewrite Hwindow. simpl.
  unfold bound_names in Hrun. rewrite Hrun. simpl.
  destruct Hmp as [-> | ->].
  - exists method, bad, thsd, gs, nsdp, window, ld, lg, w. split; [reflexivity|done].
  - exists method, bad, thsd, gs, nsdp, window, VNone, lg, w. split; [|done].
    unfold bound_names. do 2 f_equal.
    repeat (rewrite (insert_insert_ne _ "name_ld") by done; f_equal).
    by rewrite insert_insert_eq.
Qed.


End Missing.



(** So does a volume that has the three mandatory fields but neither KDP
    nor differential phase. *)
Example missing_phase_does_not_abort :
  exists s,
    construct (H := stub_tools) (VRadar vol_no_kd) ∅ = Return tt s /\
    log s = [Warn "Missing differential phase and KDP fields, failing ..."].
Proof. eexists. split; vm_compute; reflexivity. Qed.

(** * Further properties of the code *)

(** ** Keyword arguments *)

(** The loop of [check_kwargs] computes the union used by [__init__]: an
    option the caller gave keeps the caller's value, every other default is
    filled in, and nothing else appears. *)
Theorem check_kwargs_loop_spec (kwargs default_kw : gmap string value) :
  check_kwargs_loop kwargs default_kw = check_kwargs kwargs default_kw /\
  forall k, check_kwargs_loop kwargs default_kw !! k
            = match kwargs !! k with
              | Some v => Some v
              | None => default_kw !! k
              end.
Proof.
  assert (Heq : check_kwargs_loop kwargs default_kw = check_kwargs kwargs default_kw).
  { unfold check_kwargs_loop, check_kwargs.
    apply (map_fold_weak_ind (fun acc (m : gmap string value) => acc = kwargs ∪ m)).
    - simpl. symmetry. apply (right_id_L ∅ (∪)).
    - simpl. intros i x m acc Hi ->.
      destruct ((kwargs ∪ m) !! i) as [v|] eqn:Hu.
      + apply lookup_union_Some_raw in Hu. destruct Hu as [Hk | [_ Hm]]; [|congruence].
        apply map_eq. intros j. rewrite !lookup_union.
        destruct (decide (i = j)) as [<-|Hne].
        * rewrite Hk, Hi, lookup_insert_eq. done.
        * by rewrite lookup_insert_ne.
      + apply lookup_union_None in Hu. destruct Hu as [Hk _].
        by rewrite insert_union_r. }
  split; [exact Heq|]. intros k. rewrite Heq. unfold check_kwargs.
  rewrite lookup_union. destruct (kwargs !! k), (default_kw !! k); done.
Qed.

(** Filling in the defaults a second time changes nothing. *)
Theorem check_kwargs_idempotent (kwargs default_kw : gmap string value) :
  check_kwargs (check_kwargs kwargs default_kw) default_kw
  = check_kwargs kwargs default_kw.
Proof.
  unfold check_kwargs. apply map_eq. intros k. rewrite !lookup_union.
  destruct (kwargs !! k), (default_kw !! k); done.
Qed.

(** ** More on sounding normalisation *)

Lemma keep_from_indices (T : ndarray) (zs : list Z) (i : nat) (prev : Z) kz kT :
  keep_from T i prev zs = Ok (kz, kT) ->
  exists idx : list nat,
    StronglySorted lt idx /\ Forall (fun j => i <= j < i + length zs) idx /\
    Forall2 (fun j zv => zs !! (j - i) = Some zv) idx kz /\
    Forall2 (fun j t => adata T !! j = Some t /\ mask_item T j = Ok false) idx kT.
Proof.
  revert i prev kz kT. induction zs as [|h tl IH]; intros i prev kz kT Hk.
  - injection Hk as <- <-. exists []. repeat split; constructor.
  - cbn [keep_from] in Hk.
    destruct (keep_from T (S i) h tl) as [[kz' kT']|e] eqn:Erec.
    2:{ destruct (h >? prev)%Z; [|done].
        destruct (mask_item T i) as [[]|]; simpl in Hk; try done.
        destruct (item T i); done. }
    destruct (IH _ _ _ _ Erec) as (idx & Hsort & Hrange & Hz & HT).
    assert (Hshift : Forall2 (fun j zv => (h :: tl) !! (j - i) = Some zv) idx kz').
    { clear -Hz Hrange. induction Hz as [|j zv idx kz Hj Hrest IH']; constructor.
      - inversion Hrange as [|? ? Hr _]; subst.
        replace (j - i) with (S (j - S i)) by lia. exact Hj.
      - apply IH'. by inversion Hrange. }
    assert (Hrange' : Forall (fun j => i <= j < i + length (h :: tl)) idx).
    { eapply Forall_impl; [exact Hrange|]. simpl. intros; lia. }
    assert (Hskip : exists idx0 : list nat,
              StronglySorted lt idx0 /\
              Forall (fun j => i <= j < i + length (h :: tl)) idx0 /\
              Forall2 (fun j zv => (h :: tl) !! (j - i) = Some zv) idx0 kz' /\
              Forall2 (fun j t => adata T !! j = Some t /\ mask_item T j = Ok false)
                      idx0 kT').
    { by exists idx. }
    destruct (h >? prev)%Z.
    + destruct (mask_item T i) as [b|] eqn:Em; [|done]. simpl in Hk.
      destruct b; simpl in Hk.
      * injection Hk as <- <-. exact Hskip.
      * unfold item in Hk. destruct (adata T !! i) as [t|] eqn:Et; [|done].
        simpl in Hk. injection Hk as <- <-.
        exists (i :: idx). repeat split.
        -- constructor; [done|]. eapply Forall_impl; [exact Hrange|]. simpl. intros; lia.
        -- constructor; [simpl; lia|done].
        -- constructor; [|done]. by rewrite Nat.sub_diag.
        -- constructor; [|done]. by split.
    + simpl in Hk. injection Hk as <- <-. exact Hskip.
Qed.

Lemma normalize_indices (z T : ndarray) kz kT :
  normalize z T = Ok (kz, kT) ->
  exists idx : list nat,
    StronglySorted lt idx /\
    Forall2 (fun j zv => adata z !! j = Some zv) idx kz /\
    Forall2 (fun j t => adata T !! j = Some t /\ mask_item T j = Ok false) idx kT.
Proof.
  unfold normalize. intros Hn.
  destruct (mask_item T 0) as [m0|] eqn:Em0; [|done]. simpl in Hn.
  assert (Hrest : exists kz' kT',
            match adata z with [] => Ok ([], []) | h :: tl => keep_from T 1 h tl end
            = Ok (kz', kT') /\
            ((m0 = true /\ kz = kz' /\ kT = kT') \/
             (m0 = false /\ exists z0 t0, adata z !! 0 = Some z0 /\ adata T !! 0 = Some t0 /\
                             kz = z0 :: kz' /\ kT = t0 :: kT'))).
  { destruct m0; simpl in Hn.
    - destruct (match adata z with [] => _ | _ => _ end) as [[kz' kT']|]; [|done].
      simpl in Hn. injection Hn as -> ->. exists kz, kT. split; [done|]. by left.
    - unfold item in Hn.
      destruct (adata z !! 0) as [z0|] eqn:Ez0; [|done]. simpl in Hn.
      destruct (adata T !! 0) as [t0|] eqn:Et0; [|done]. simpl in Hn.
      destruct (match adata z with [] => _ | _ => _ end) as [[kz' kT']|]; [|done].
      simpl in Hn. injection Hn as <- <-. exists kz', kT'. split; [done|]. right.
      split; [done|]. by exists z0, t0. }
  destruct Hrest as (kz' & kT' & Hk & Hcase).
  assert (Htail : exists idx : list nat,
            StronglySorted lt idx /\ Forall (fun j => 1 <= j) idx /\
            Forall2 (fun j zv => adata z !! j = Some zv) idx kz' /\
            Forall2 (fun j t => adata T !! j = Some t /\ mask_item T j = Ok false) idx kT').
  { destruct (adata z) as [|h tl] eqn:Ez.
    - injection Hk as <- <-. exists []. repeat split; constructor.
    - destruct (keep_from_indices T tl 1 h kz' kT' Hk) as (idx & Hs & Hr & Hz & HT).
      exists idx. repeat split; try done.
      + eapply Forall_impl; [exact Hr|]. simpl. intros; lia.
      + clear -Hz Hr. induction Hz as [|j zv idx kz Hj Hrest IH']; constructor.
        * inversion Hr as [|? ? Hr1 _]; subst.
          replace j with (S (j - 1)) by lia. exact Hj.
        * apply IH'. by inversion Hr. }
  destruct Htail as (idx & Hs & Hge & Hz & HT).
  destruct Hcase as [(-> & -> & ->) | (-> & z0 & t0 & Hz0 & Ht0 & -> & ->)].
  - by exists idx.
  - exists (0 :: idx). repeat split.
    + constructor; [done|]. eapply Forall_impl; [exact Hge|]. simpl. intros; lia.
    + by constructor.
    + constructor; [|done]. by split.
Qed.

(** Whatever profile normalisation returns is a selection of entries of
    the sounding in their original order: the kept heights and the kept
    temperatures come from the same positions, and at every kept position
    the temperature is not masked. *)
Theorem normalize_selects_valid_entries (z T : ndarray) kz kT :
  normalize z T = Ok (kz, kT) ->
  exists idx : list nat,
    StronglySorted lt idx /\
    Forall2 (fun j zv => adata z !! j = Some zv) idx kz /\
    Forall2 (fun j t => adata T !! j = Some t /\ mask_item T j = Ok false) idx kT.
Proof. exact (normalize_indices z T kz kT). Qed.

Lemma keep_from_above_prev (T : ndarray) (zs : list Z) (i : nat) (prev : Z) kz kT :
  weakly_increasing (prev :: zs) = true ->
  keep_from T i prev zs = Ok (kz, kT) ->
  Forall (fun h => (prev < h)%Z) kz /\ strictly_increasing kz = true.
Proof.
  revert i prev kz kT. induction zs as [|h tl IH]; intros i prev kz kT Hw Hk.
  - injection Hk as <- <-. split; [constructor|done].
  - cbn [keep_from] in Hk.
    assert (Hw' : (prev <= h)%Z /\ weakly_increasing (h :: tl) = true).
    { simpl in Hw. apply andb_true_iff in Hw. destruct Hw as [Hle Hw].
      split; [lia|done]. }
    destruct Hw' as [Hle Hwtl].
    destruct (keep_from T (S i) h tl) as [[kz' kT']|e] eqn:Erec.
    2:{ destruct (h >? prev)%Z; [|done].
        destruct (mask_item T i) as [[]|]; simpl in Hk; try done.
        destruct (item T i); done. }
    destruct (IH _ _ _ _ Hwtl Erec) as (Habove & Hinc).
    assert (Hskip : Forall (fun x => (prev < x)%Z) kz' /\ strictly_increasing kz' = true).
    { split; [|done]. eapply Forall_impl; [exact Habove|]. simpl. intros; lia. }
    destruct (h >? prev)%Z eqn:Hgt.
    + destruct (mask_item T i) as [b|] eqn:Em; [|done]. simpl in Hk.
      destruct b; simpl in Hk.
      * by injection Hk as <- <-.
      * destruct (item T i); [|done]. simpl in Hk. injection Hk as <- <-.
        split.
        -- constructor; [lia|]. by destruct Hskip.
        -- destruct kz' as [|y kz'']; [done|]. simpl.
           apply andb_true_iff. split; [|done].
           inversion Habove; subst. lia.
    + simpl in Hk. by injection Hk as <- <-.
Qed.

(** When the heights of the sounding never come down, the kept heights
    are strictly increasing, whichever temperatures are masked: repeated
    heights and invalid entries are what the loop removes. *)
Theorem normalize_increasing_on_ascent (z T : ndarray) kz kT :
  weakly_increasing (adata z) = true ->
  normalize z T = Ok (kz, kT) ->
  strictly_increasing kz = true.
Proof.
  unfold normalize. intros Hw Hn.
  destruct (mask_item T 0) as [m0|] eqn:Em0; [|done]. simpl in Hn.
  destruct (adata z) as [|h tl] eqn:Ez.
  - destruct m0; simpl in Hn; [by injection Hn as <- <-|].
    unfold item in Hn. rewrite Ez in Hn. done.
  - destruct (keep_from T 1 h tl) as [[kz' kT']|] eqn:Hk.
    2:{ destruct m0; simpl in Hn; [done|]. unfold item in Hn. rewrite Ez in Hn.
        simpl in Hn. destruct (adata T !! 0); done. }
    destruct (keep_from_above_prev T tl 1 h kz' kT' Hw Hk) as (Habove & Hinc).
    destruct m0; simpl in Hn.
    + by injection Hn as <- <-.
    + unfold item in Hn. rewrite Ez in Hn. simpl in Hn.
      destruct (adata T !! 0); [|done]. simpl in Hn. injection Hn as <- <-.
      destruct kz' as [|y kz'']; [done|]. simpl.
      apply andb_true_iff. split; [|done]. inversion Habove; subst. lia.
Qed.

Lemma normalize_increasing_on_ascent_witness :
  strictly_increasing [100; 1500; 3000]%Z = true.
Proof.
  apply (normalize_increasing_on_ascent
           (plain [100; 1500; 1500; 3000]%Z)
           (mk_array [20; 10; 9; 0]%Z (MaskArr [false; false; false; false]))
           [100; 1500; 3000]%Z [20; 10; 0]%Z); reflexivity.
Defined.

Lemma normalize_selects_valid_entries_witness :
  exists idx : list nat,
    StronglySorted lt idx /\
    Forall2 (fun j zv => [5000; 1000; 2000]%Z !! j = Some zv) idx [5000; 2000]%Z /\
    Forall2 (fun j t => [-10; 15; 8]%Z !! j = Some t /\
                        mask_item (mk_array [-10; 15; 8]%Z
                                     (MaskArr [false; false; false])) j = Ok false)
            idx [-10; 8]%Z.
Proof.
  apply (normalize_selects_valid_entries (plain [5000; 1000; 2000]%Z)
           (mk_array [-10; 15; 8]%Z (MaskArr [false; false; false]))).
  reflexivity.
Defined.

(** [check_sounding_for_montonic] is all or nothing.  If it raises, the
    engine is as it was.  If it returns, either no sounding was bound and
    nothing changed, or both [snd_z] and [snd_T] were replaced, by plain
    arrays of one and the same length. *)
Theorem check_sounding_all_or_nothing (s : pystate) :
  match check_sounding_for_montonic s with
  | Throw _ s' => s' = s
  | Return _ s' =>
      s' = s \/
      exists kz kT,
        length kz = length kT /\
        s' = mk_state (<["snd_T" := VArr (plain kT)]>
                         (<["snd_z" := VArr (plain kz)]> (self s))) (log s)
  end.
Proof.
  unfold check_sounding_for_montonic, hasattr, getattr_arr, getattr, setattr, lift,
    mbind, M_bind, mret, M_ret.
  destruct (self s !! "snd_T") as [vT|] eqn:HT; cbn beta iota.
  2:{ rewrite bool_decide_eq_false_2 by (intros [? ?]; done). by left. }
  rewrite bool_decide_eq_true_2 by (by eexists). cbn beta iota. rewrite HT.
  destruct vT as [| | | |T| | | |]; try reflexivity. cbn beta iota.
  destruct (mask_item T 0) as [m0|]; [|reflexivity]. cbn beta iota.
  destruct (self s !! "snd_z") as [vz|] eqn:Hz; [|reflexivity].
  destruct vz as [| | | |z| | | |]; try reflexivity. cbn beta iota.
  destruct (normalize z T) as [[kz kT]|] eqn:Hn; [|reflexivity]. cbn beta iota.
  right. exists kz, kT. split; [|reflexivity].
  destruct (normalize_indices z T kz kT Hn) as (idx & _ & Hz' & HT').
  apply Forall2_length in Hz', HT'. congruence.
Qed.

(** ** Classification codes *)

Lemma argmax_from_spec (l : list Z) (best : Z) (besti i : nat) (pre : list Z) :
  length pre = i -> besti < i ->
  pre !! besti = Some best ->
  (forall j x, pre !! j = Some x -> (x <= best)%Z /\ (j < besti -> (x < best)%Z)) ->
  let k := argmax_from best besti i l in
  k < i + length l /\
  exists m, (pre ++ l) !! k = Some m /\
    forall j x, (pre ++ l) !! j = Some x -> (x <= m)%Z /\ (j < k -> (x < m)%Z).
Proof.
  revert best besti i pre. induction l as [|x tl IH]; intros best besti i pre Hlen Hlt Hb Hmax.
  - simpl. split; [lia|]. exists best. rewrite app_nil_r. by split.
  - cbn [argmax_from]. destruct (x >? best)%Z eqn:Hgt.
    + destruct (IH x i (S i) (pre ++ [x])) as (Hk & m & Hm & Hall).
      * rewrite length_app. simpl. lia.
      * lia.
      * rewrite lookup_app_r by lia. by rewrite Hlen, Nat.sub_diag.
      * intros j y Hj. destruct (decide (j < i)) as [Hji|Hji].
        -- rewrite lookup_app_l in Hj by lia. destruct (Hmax j y Hj). split; lia.
        -- rewrite lookup_app_r in Hj by lia.
           destruct (j - length pre) as [|n] eqn:En; simpl in Hj; [|done].
           injection Hj as <-. split; lia.
      * simpl. rewrite <- app_assoc in Hm, Hall. simpl in Hm, Hall.
        split; [lia|]. by exists m.
    + destruct (IH best besti (S i) (pre ++ [x])) as (Hk & m & Hm & Hall).
      * rewrite length_app. simpl. lia.
      * lia.
      * by rewrite lookup_app_l by lia.
      * intros j y Hj. destruct (decide (j < i)) as [Hji|Hji].
        -- rewrite lookup_app_l in Hj by lia. by apply Hmax.
        -- rewrite lookup_app_r in Hj by lia.
           destruct (j - length pre) as [|n] eqn:En; simpl in Hj; [|done].
           injection Hj as <-. split; lia.
      * simpl. rewrite <- app_assoc in Hm, Hall. simpl in Hm, Hall.
        split; [lia|]. by exists m.
Qed.

Lemma argmax_lt_length (l : list Z) : l <> [] -> argmax l < length l.
Proof.
  destruct l as [|x tl]; [done|]. intros _. unfold argmax.
  destruct (argmax_from_spec tl x 0 1 [x]) as (Hk & _); [done | lia | done | |].
  - intros j y Hj. destruct j; simpl in Hj; [|done]. injection Hj as <-. split; lia.
  - simpl in *. lia.
Qed.

(** [argmax] is numpy's: on a non-empty list it returns the position of
    the first largest element. *)
Theorem argmax_is_first_maximum (l : list Z) :
  l <> [] ->
  argmax l < length l /\
  exists m, l !! argmax l = Some m /\
    forall j x, l !! j = Some x -> (x <= m)%Z /\ (j < argmax l -> (x < m)%Z).
Proof.
  destruct l as [|x tl]; [done|]. intros _. unfold argmax.
  destruct (argmax_from_spec tl x 0 1 [x]) as (Hk & m & Hm & Hall);
    [done | lia | done | |].
  - intros j y Hj. destruct j; simpl in Hj; [|done]. injection Hj as <-. split; lia.
  - simpl in *. split; [lia|]. by exists m.
Qed.

Lemma argmax_is_first_maximum_witness :
  argmax [3; 7; 7; 1]%Z < length [3; 7; 7; 1]%Z /\
  exists m, [3; 7; 7; 1]%Z !! argmax [3; 7; 7; 1]%Z = Some m /\
    forall j x, [3; 7; 7; 1]%Z !! j = Some x ->
                (x <= m)%Z /\ (j < argmax [3; 7; 7; 1]%Z -> (x < m)%Z).
Proof. apply (argmax_is_first_maximum [3; 7; 7; 1]%Z). discriminate. Defined.

Lemma argmax_axis0_codes (scores : list (list Z)) (fh : list Z) :
  argmax_axis0_plus1 scores = Ok fh ->
  match scores with
  | [] => False
  | row :: _ => length fh = length row
  end /\
  Forall (fun c => (1 <= c <= Z.of_nat (length scores))%Z) fh.
Proof.
  unfold argmax_axis0_plus1. destruct scores as [|row rest]; [done|].
  intros Hfh. injection Hfh as <-. split.
  - by rewrite length_map, length_seq.
  - apply Forall_forall. intros c Hc. apply list_elem_of_fmap in Hc.
    destruct Hc as (g & -> & _).
    pose proof (argmax_lt_length (map (fun r => nth g r 0%Z) (row :: rest))) as Hlt.
    specialize (Hlt ltac:(done)).
    rewrite length_map in Hlt. simpl in Hlt |- *. unfold argmax in Hlt. simpl in Hlt. lia.
Qed.

(** The codes [numpy.argmax(scores, axis=0) + 1] yields: one per gate of
    the first score row, each between 1 and the number of classes scored. *)
Theorem hid_codes_in_range (scores : list (list Z)) (fh : list Z) :
  argmax_axis0_plus1 scores = Ok fh ->
  match scores with
  | [] => False
  | row :: _ => length fh = length row
  end /\
  Forall (fun c => (1 <= c <= Z.of_nat (length scores))%Z) fh.
Proof. exact (argmax_axis0_codes scores fh). Qed.

Lemma hid_codes_in_range_witness :
  match [[1; 9]; [5; 2]; [5; 9]]%Z with
  | [] => False
  | row :: _ => length [2; 1]%Z = length row
  end /\
  Forall (fun c => (1 <= c <= Z.of_nat (length [[1; 9]; [5; 2]; [5; 9]]%Z))%Z) [2; 1]%Z.
Proof. apply (hid_codes_in_range [[1; 9]; [5; 2]; [5; 9]]%Z). reflexivity. Defined.

(** ** Rules for running a method to its postcondition *)

Lemma wp_bind {A B} (m : M A) (f : A -> M B) Q E s :
  wp m (fun a s' => wp (f a) Q E s') E s -> wp (m ≫= f) Q E s.
Proof.
  unfold wp, mbind, M_bind. destruct (m s); done.
Qed.

Lemma wp_ret {A} (a : A) (Q : A -> pystate -> Prop) E s :
  Q a s -> wp (mret a) Q E s.
Proof. done. Qed.

Lemma wp_lift {A} (r : result A) (Q : A -> pystate -> Prop) E s :
  (forall a, r = Ok a -> Q a s) -> (forall e, r = Raise e -> E e s) ->
  wp (lift r) Q E s.
Proof. unfold wp, lift. destruct r; auto. Qed.

Lemma wp_getattr k (Q : value -> pystate -> Prop) E s :
  (forall v, self s !! k = Some v -> Q v s) -> E AttributeError s ->
  wp (getattr k) Q E s.
Proof. unfold wp, getattr. destruct (self s !! k); auto. Qed.

Lemma wp_the_radar (Q : Radar -> pystate -> Prop) E s :
  (forall r, self s !! "radar" = Some (VRadar r) -> Q r s) -> E AttributeError s ->
  wp the_radar Q E s.
Proof.
  intros HQ HE. unfold wp, the_radar, getattr, lift, mbind, M_bind, mret, M_ret.
  destruct (self s !! "radar") as [[]|]; auto.
Qed.

Lemma wp_emit e (Q : unit -> pystate -> Prop) E s :
  Q tt (mk_state (self s) (log s ++ [e])) -> wp (emit e) Q E s.
Proof. done. Qed.

Lemma wp_setattr k v (Q : unit -> pystate -> Prop) E s :
  Q tt (mk_state (<[k := v]> (self s)) (log s)) -> wp (setattr k v) Q E s.
Proof. done. Qed.

Lemma wp_call {A} f (r : result A) (Q : A -> pystate -> Prop) E s :
  (forall a, r = Ok a -> Q a (mk_state (self s) (log s ++ [Call f]))) ->
  (forall e, r = Raise e -> E e (mk_state (self s) (log s ++ [Call f]))) ->
  wp (call f r) Q E s.
Proof.
  intros HQ HE. unfold wp, call, emit, lift, mbind, M_bind. destruct r; auto.
Qed.

Lemma wp_verbose_print msg (Q : unit -> pystate -> Prop) E s :
  (forall lg, Forall (fun e => is_call e = false) lg ->
              Q tt (mk_state (self s) (log s ++ lg))) ->
  (forall e, E e s) ->
  wp (verbose_print msg) Q E s.
Proof.
  intros HQ HE.
  unfold wp, verbose_print, flag, print, emit, getattr, lift, mbind, M_bind, mret, M_ret.
  destruct (self s !! "verbose") as [v|]; [|apply HE].
  destruct (truthy v) as [[]|]; [| |apply HE].
  - apply HQ. by repeat constructor.
  - specialize (HQ [] (List.Forall_nil _)). rewrite app_nil_r in HQ. by destruct s.
Qed.

Lemma wp_extract field (Q : list Z -> pystate -> Prop) E s :
  (forall r f, self s !! "radar" = Some (VRadar r) -> get_field field r = Ok f ->
               Q (filled (match self s !! "bad" with Some (VNum b) => b | _ => 0%Z end)
                         (f_data f)) s) ->
  (forall e, E e s) ->
  wp (extract_unmasked_data field) Q E s.
Proof.
  intros HQ HE.
  unfold wp, extract_unmasked_data, the_radar, getattr, lift, mbind, M_bind, mret, M_ret.
  destruct (self s !! "radar") as [[| | | | |r| | |]|] eqn:Hr; try apply HE.
  destruct (get_field field r) as [f|] eqn:Hf; [|apply HE].
  specialize (HQ r f eq_refl Hf).
  destruct (hasattr_mask (f_data f)) eqn:Hm.
  - destruct (self s !! "bad") as [[]|]; try apply HE. exact HQ.
  - unfold filled in HQ. unfold hasattr_mask in Hm.
    destruct (amask (f_data f)); done.
Qed.

Lemma set_mask_data a v a' : set_mask a v = Ok a' -> adata a' = adata a.
Proof.
  unfold set_mask. destruct (amask a), v; intros Heq; try done;
    injection Heq as <-; done.
Qed.

Lemma lookup_repeat_Some {A} (x y : A) n i : repeat x n !! i = Some y -> y = x.
Proof.
  revert i. induction n as [|n IH]; intros [|i]; simpl; try done.
  - congruence.
  - apply IH.
Qed.

(** ** Reading a field as plain data *)

(** [extract_unmasked_data] reads and never writes.  On a field of the
    volume it returns one sample per gate, the sentinel [bad] where the
    field's mask is set and the field's own sample elsewhere, and leaves the
    engine as it was; on a name that is no field it raises KeyError. *)
Theorem extract_unmasked_data_fills_masked_gates s r name f bad :
  self s !! "radar" = Some (VRadar r) ->
  self s !! "bad" = Some (VNum bad) ->
  fields r !! name = Some f ->
  wf_array (f_data f) ->
  exists out,
    extract_unmasked_data (VStr name) s = Return out s /\
    length out = length (adata (f_data f)) /\
    forall (i : nat) (d : Z) (b : bool), adata (f_data f) !! i = Some d ->
                  getmaskarray (f_data f) !! i = Some b ->
                  out !! i = Some (if b then bad else d).
Proof.
  intros Hr Hbad Hf Hwf. exists (filled bad (f_data f)).
  split; [by apply (extract_ok s r bad name f)|].
  split; [by apply filled_length|].
  intros i d b Hd Hb. unfold filled, getmaskarray, wf_array in *.
  destruct (amask (f_data f)) as [| |m].
  - apply lookup_repeat_Some in Hb. by subst b.
  - apply lookup_repeat_Some in Hb. by subst b.
  - rewrite lookup_zip_with, Hd. simpl. by rewrite Hb.
Qed.

Lemma extract_unmasked_data_fills_masked_gates_witness :
  exists out,
    extract_unmasked_data (VStr "DZ") (engine_on vol_masked)
      = Return out (engine_on vol_masked) /\
    length out = length (adata (f_data dz_masked)) /\
    forall (i : nat) (d : Z) (b : bool), adata (f_data dz_masked) !! i = Some d ->
                  getmaskarray (f_data dz_masked) !! i = Some b ->
                  out !! i = Some (if b then BAD else d).
Proof.
  apply (extract_unmasked_data_fills_masked_gates (engine_on vol_masked) vol_masked
           "DZ" dz_masked BAD); reflexivity.
Defined.



(** ** What a commit touches *)

Lemma commit_outcome raw name u l sn s :
  match add_field_to_radar_object raw name u l sn s with
  | Throw _ s' => s' = s
  | Return _ s' =>
      exists n r F,
        name = VStr n /\ self s !! "radar" = Some (VRadar r) /\
        s' = with_field s r n F /\
        f_units F = u /\ f_long_name F = l /\ f_standard_name F = sn /\
        adata (f_data F) = adata raw
  end.
Proof.
  assert (Hany : adata (asanyarray raw) = adata raw) by (by destruct raw as [? []]).
  unfold add_field_to_radar_object, field_data, the_radar, getattr, setattr, lift,
    mbind, M_bind, mret, M_ret.
  destruct (self s !! "bad") as [bad|] eqn:Hbad; [|reflexivity].
  destruct (self s !! "radar") as [vr|] eqn:Hr; [|reflexivity].
  destruct vr as [| | | | |r| | |]; try reflexivity.
  destruct (self s !! "name_dz") as [ndz|] eqn:Hdz; [|reflexivity].
  destruct (get_field ndz r) as [f|] eqn:Hf; [|reflexivity].
  cbn beta iota.
  destruct (hasattr_mask (f_data f)).
  - destruct (get_mask (f_data f)) as [m|]; [|reflexivity].
    destruct (set_mask (asanyarray raw) m) as [mf|] eqn:Hset; [|reflexivity].
    cbn beta iota. rewrite Hr. cbn beta iota. rewrite Hdz. cbn beta iota. rewrite Hf.
    cbn beta iota.
    destruct (f_FillValue f) as [fv|]; [|reflexivity].
    cbn beta iota delta [as_num]. destruct name; try reflexivity.
    cbn beta iota. rewrite Hr.
    eexists _, r, _. repeat split. simpl.
    apply set_mask_data in Hset. congruence.
  - cbn beta iota. destruct (as_num bad); [|reflexivity].
    destruct name; try reflexivity.
    cbn beta iota. rewrite Hr.
    eexists _, r, _. repeat split. exact Hany.
Qed.

(** A commit that raises, for a missing reflectivity field, a missing fill
    value, a sentinel that is no number or a name that is no string, has
    changed nothing: every check precedes the one write. *)
Theorem commit_raise_changes_nothing raw name u l sn s e s' :
  add_field_to_radar_object raw name u l sn s = Throw e s' -> s' = s.
Proof.
  intros Hrun. pose proof (commit_outcome raw name u l sn s) as Ho.
  by rewrite Hrun in Ho.
Qed.

Lemma commit_raise_changes_nothing_witness :
  exists s',
    add_field_to_radar_object (plain [1; 2]%Z) (VStr "rain") "" "" ""
      (mk_state (delete "bad" (self (engine_on vol_masked))) [])
      = Throw AttributeError s' /\
    s' = mk_state (delete "bad" (self (engine_on vol_masked))) [].
Proof.
  eexists. split; [vm_compute; reflexivity|].
  apply (commit_raise_changes_nothing (plain [1; 2]%Z) (VStr "rain") "" "" ""
           (mk_state (delete "bad" (self (engine_on vol_masked))) []) AttributeError).
  vm_compute. reflexivity.
Defined.



(** ** What quality control touches *)

Section QCframe.
Context `{Externals}.

Lemma do_qc_post (s : pystate) :
  wp do_qc
     (fun _ s' =>
        self s' = self s \/
        exists r n F a',
          self s !! "radar" = Some (VRadar r) /\
          self s !! "name_dz" = Some (VStr n) /\
          fields r !! n = Some F /\
          adata a' = adata (f_data F) /\
          self s' = <["radar" := VRadar (add_field n
                        (mk_field a' (f_units F) (f_long_name F)
                                  (f_standard_name F) (f_FillValue F)) r)]> (self s))
     (fun _ s' => self s' = self s)
     s.
Proof.
  unfold do_qc.
  apply wp_bind, wp_getattr; [intros name_sdp _|done].
  apply wp_bind, wp_the_radar; [intros r0 _|done].
  destruct (negb (in_fields name_sdp r0)).
  { apply wp_emit. by left. }
  apply wp_bind, wp_verbose_print; [intros lg1 _|done].
  apply wp_bind, wp_getattr; [intros ndz1 _|done].
  apply wp_bind, wp_extract; [intros r1 f1 _ _|done].
  apply wp_bind, wp_getattr; [intros ndr _|done].
  apply wp_bind, wp_extract; [intros r2 f2 _ _|done].
  apply wp_bind, wp_getattr; [intros nsdp _|done].
  apply wp_bind, wp_extract; [intros r3 f3 _ _|done].
  apply wp_bind, wp_getattr; [intros rng _|done].
  apply wp_bind, wp_getattr; [intros thdr _|done].
  apply wp_bind, wp_getattr; [intros bad1 _|done].
  apply wp_bind, wp_call; [intros im _|done].
  apply wp_bind, wp_getattr; [intros th _|done].
  apply wp_bind, wp_call; [intros pm _|done].
  apply wp_bind, wp_lift; [intros new_mask _|done].
  apply wp_bind, wp_getattr; [intros bad2 _|done].
  apply wp_bind, wp_lift; [intros b _|done].
  apply wp_bind, wp_lift; [intros dz_qc _|done].
  apply wp_bind, wp_verbose_print; [intros lg2 _|done].
  apply wp_bind, wp_getattr; [intros bad3 _|done].
  apply wp_bind, wp_getattr; [intros spk _|done].
  apply wp_bind, wp_call; [intros ds _|done].
  apply wp_bind, wp_lift; [intros final_mask _|done].
  apply wp_bind, wp_the_radar; [intros r Hr|done].
  apply wp_bind, wp_getattr; [intros ndz Hdz|done].
  apply wp_bind, wp_lift; [intros F HF|done].
  apply wp_bind, wp_lift; [intros a' Hset|done].
  apply wp_bind, wp_lift; [intros n Hn|done].
  apply wp_setattr. simpl in *. right.
  destruct ndz as [| | |n0| | | | |]; try done. injection Hn as ->.
  exists r, n, F, a'. repeat split; try done.
  - simpl in HF. destruct (fields r !! n); [|done]. by injection HF as ->.
  - by apply set_mask_data in Hset.
Qed.

(** If [do_qc] raises, whether for a missing field, a failing filter,
    masks of the wrong shape or a reflectivity that takes no mask, the
    engine's attributes and the volume are what they were: the one write
    is the last statement. *)
Theorem do_qc_raise_changes_nothing s e s' :
  do_qc s = Throw e s' -> self s' = self s.
Proof.
  intros Hrun. pose proof (do_qc_post s) as Hp. unfold wp in Hp.
  by rewrite Hrun in Hp.
Qed.

(** If [do_qc] returns, it has changed nothing but the mask of the
    reflectivity field: that field keeps its samples, metadata and fill
    value, and every other field, the geometry and every other attribute
    of the engine are as before. *)
Theorem do_qc_changes_only_reflectivity_mask s s' :
  do_qc s = Return tt s' ->
  self s' = self s \/
  exists r n F a',
    self s !! "radar" = Some (VRadar r) /\
    self s !! "name_dz" = Some (VStr n) /\
    fields r !! n = Some F /\
    adata a' = adata (f_data F) /\
    self s' = <["radar" := VRadar (add_field n
                  (mk_field a' (f_units F) (f_long_name F)
                            (f_standard_name F) (f_FillValue F)) r)]> (self s).
Proof.
  intros Hrun. pose proof (do_qc_post s) as Hp. unfold wp in Hp.
  by rewrite Hrun in Hp.
Qed.

End QCframe.

Lemma do_qc_raise_changes_nothing_witness :
  exists s',
    do_qc (H := stub_tools)
      (engine_on (sample_radar [("DZ", dz_plain); ("DR", dr_field);
                                ("RH", rh_field); ("SDP_CSU", sd_field)]))
      = Throw AttributeError s' /\
    self s' = self (engine_on (sample_radar [("DZ", dz_plain); ("DR", dr_field);
                                             ("RH", rh_field); ("SDP_CSU", sd_field)])).
Proof.
  eexists. split; [vm_compute; reflexivity|].
  eapply (do_qc_raise_changes_nothing (H := stub_tools)). vm_compute. reflexivity.
Defined.

Lemma do_qc_changes_only_reflectivity_mask_witness :
  exists s',
    do_qc (H := stub_tools) (engine_on vol_masked) = Return tt s' /\
    (self s' = self (engine_on vol_masked) \/
     exists r n F a',
       self (engine_on vol_masked) !! "radar" = Some (VRadar r) /\
       self (engine_on vol_masked) !! "name_dz" = Some (VStr n) /\
       fields r !! n = Some F /\
       adata a' = adata (f_data F) /\
       self s' = <["radar" := VRadar (add_field n
                     (mk_field a' (f_units F) (f_long_name F)
                               (f_standard_name F) (f_FillValue F)) r)]>
                   (self (engine_on vol_masked))).
Proof.
  eexists. split; [vm_compute; reflexivity|].
  apply (do_qc_changes_only_reflectivity_mask (H := stub_tools) (engine_on vol_masked)).
  vm_compute. reflexivity.
Defined.

(** ** The retrieval stages *)

#[local] Arguments field_data : simpl never.
#[local] Arguments flag : simpl never.

Lemma commit_step s r dz base bad raw n u l sn :
  bound s r dz base bad -> fits base raw ->
  exists F,
    add_field_to_radar_object raw (VStr n) u l sn s = Return tt (with_field s r n F) /\
    masking_rule base bad raw F /\ f_units F = u /\
    (n <> dz -> bound (with_field s r n F) (add_field n F r) dz base bad).
Proof.
  intros (Hr & Hdz & Hbad & Hbase & Hwb & Hfill) (Hwr & Hlen).
  destruct (commit_value_rule base bad raw u l sn Hwr Hwb Hlen Hfill)
    as (mf & fv & Hcv & Hrule).
  exists (mk_field mf u l sn (Some fv)). split; [by apply (commit_ok s r dz base bad)|].
  split; [done|]. split; [done|]. intros Hne.
  unfold bound, with_field. simpl.
  repeat split; rewrite ?lookup_insert_eq, ?lookup_insert_ne by done; done.
Qed.

Lemma bound_log s lg r dz base bad :
  bound s r dz base bad -> bound (mk_state (self s) lg) r dz base bad.
Proof. done. Qed.

Lemma field_of_with_field s r n F : field_of (with_field s r n F) n = Some F.
Proof.
  unfold field_of, radar_of, with_field. simpl. rewrite lookup_insert_eq. simpl.
  by rewrite lookup_insert_eq.
Qed.

Lemma field_of_with_field_ne s r n F n' :
  n <> n' -> field_of (with_field s r n F) n' = fields r !! n'.
Proof.
  intros Hne. unfold field_of, radar_of, with_field. simpl. rewrite lookup_insert_eq.
  simpl. by rewrite lookup_insert_ne.
Qed.

Section Stages.
Context `{Externals}.

(** [get_dsd] needs [self.band], which [__init__] binds only on its way
    into the classification stage: on an engine without it the stage
    raises AttributeError before the external algorithm is called and
    before anything is committed. *)
Theorem get_dsd_without_band_raises s r dz dr kd Fdz Fdr Fkd :
  self s !! "radar" = Some (VRadar r) ->
  self s !! "name_dz" = Some (VStr dz) ->
  self s !! "name_dr" = Some (VStr dr) ->
  self s !! "name_kd" = Some (VStr kd) ->
  fields r !! dz = Some Fdz ->
  fields r !! dr = Some Fdr ->
  fields r !! kd = Some Fkd ->
  self s !! "band" = None ->
  get_dsd s = Throw AttributeError s.
Proof.
  intros Hr Hdz Hdr Hkd Hfdz Hfdr Hfkd Hband. unfold get_dsd.
  rewrite run_bind, (field_data_ok _ _ _ _ _ Hr Hdz Hfdz).
  rewrite run_bind, (field_data_ok _ _ _ _ _ Hr Hdr Hfdr).
  rewrite run_bind, (field_data_ok _ _ _ _ _ Hr Hkd Hfkd).
  rewrite run_bind. unfold getattr. by rewrite Hband.
Qed.


End Stages.

Section Stages2.
Context `{Externals}.

(** In winter mode the classification stage reads its input fields, prints
    its notice and returns: no external call, nothing committed. *)
Theorem get_hid_winter_is_noop s r dz dr kd rh Fdz Fdr Fkd Frh w :
  self s !! "radar" = Some (VRadar r) ->
  self s !! "name_dz" = Some (VStr dz) ->
  self s !! "name_dr" = Some (VStr dr) ->
  self s !! "name_kd" = Some (VStr kd) ->
  self s !! "name_rh" = Some (VStr rh) ->
  self s !! "name_ld" = Some VNone ->
  fields r !! dz = Some Fdz ->
  fields r !! dr = Some Fdr ->
  fields r !! kd = Some Fkd ->
  fields r !! rh = Some Frh ->
  self s !! "winter_flag" = Some w ->
  truthy w = Ok true ->
  get_hid s = Return tt (mk_state (self s)
                           (log s ++ [Print "Winter HID not enabled yet, sorry!"])).
Proof.
  intros Hr Hdz Hdr Hkd Hrh Hld Hfdz Hfdr Hfkd Hfrh Hw Hwt. unfold get_hid.
  rewrite run_bind, (field_data_ok _ _ _ _ _ Hr Hdz Hfdz).
  rewrite run_bind, (field_data_ok _ _ _ _ _ Hr Hdr Hfdr).
  rewrite run_bind, (field_data_ok _ _ _ _ _ Hr Hkd Hfkd).
  rewrite run_bind, (field_data_ok _ _ _ _ _ Hr Hrh Hfrh).
  rewrite run_bind, (getattr_ok _ _ _ Hld). cbn beta iota delta [is_none negb].
  rewrite run_bind, run_ret.
  rewrite run_bind, (flag_ok _ _ _ _ Hw Hwt). reflexivity.
Qed.


(** In winter mode the precipitation stage reads reflectivity, differential
    reflectivity and KDP, prints its notice and returns, whatever method
    was selected. *)
Theorem get_precip_rate_winter_is_noop s r dz dr kd Fdz Fdr Fkd w ice method :
  self s !! "radar" = Some (VRadar r) ->
  self s !! "name_dz" = Some (VStr dz) ->
  self s !! "name_dr" = Some (VStr dr) ->
  self s !! "name_kd" = Some (VStr kd) ->
  fields r !! dz = Some Fdz ->
  fields r !! dr = Some Fdr ->
  fields r !! kd = Some Fkd ->
  self s !! "winter_flag" = Some w ->
  truthy w = Ok true ->
  get_precip_rate ice method s
  = Return tt (mk_state (self s)
                 (log s ++ [Print "Winter precip not enabled yet, sorry!"])).
Proof.
  intros Hr Hdz Hdr Hkd Hfdz Hfdr Hfkd Hw Hwt. unfold get_precip_rate.
  rewrite run_bind, (field_data_ok _ _ _ _ _ Hr Hdz Hfdz).
  rewrite run_bind, (field_data_ok _ _ _ _ _ Hr Hdr Hfdr).
  rewrite run_bind, (field_data_ok _ _ _ _ _ Hr Hkd Hfkd).
  rewrite run_bind, (flag_ok _ _ _ _ Hw Hwt). reflexivity.
Qed.



End Stages2.

(** ** Geometry *)

Lemma meshgrid_x_lookup (xs ys : list Z) i j x :
  i < length ys -> xs !! j = Some x ->
  meshgrid_x xs ys !! (i * length xs + j) = Some x.
Proof.
  unfold meshgrid_x. revert i. induction ys as [|y tl IH]; intros i Hi Hx; simpl in *.
  - lia.
  - destruct i as [|i].
    + simpl. by rewrite lookup_app_l by (by eapply lookup_lt_Some).
    + rewrite lookup_app_r by (simpl; lia).
      replace (S i * length xs + j - length xs) with (i * length xs + j) by (simpl; lia).
      apply IH; [lia|done].
Qed.

Lemma meshgrid_y_lookup (xs ys : list Z) i j y :
  j < length xs -> ys !! i = Some y ->
  meshgrid_y xs ys !! (i * length xs + j) = Some y.
Proof.
  unfold meshgrid_y. revert i. induction ys as [|y0 tl IH]; intros i Hj Hy; simpl in *.
  - done.
  - destruct i as [|i].
    + simpl in *. injection Hy as ->.
      rewrite lookup_app_l by (by rewrite length_map).
      rewrite list_lookup_fmap.
      destruct (lookup_lt_is_Some_2 xs j Hj) as [x Hx]. by rewrite Hx.
    + rewrite lookup_app_r by (rewrite length_map; simpl; lia).
      rewrite length_map.
      replace (S i * length xs + j - length xs) with (i * length xs + j) by (simpl; lia).
      by apply IH.
Qed.

(** The grids [get_z_from_radar] and [call_csu_kdp] build with
    [numpy.meshgrid] are row-major over (ray, gate): gate [j] of ray [i]
    gets range bin [j] and the angle of ray [i], and each grid has one entry
    per ray and gate. *)
Theorem meshgrid_row_major (xs ys : list Z) i j x y :
  xs !! j = Some x -> ys !! i = Some y ->
  meshgrid_x xs ys !! (i * length xs + j) = Some x /\
  meshgrid_y xs ys !! (i * length xs + j) = Some y /\
  length (meshgrid_x xs ys) = length ys * length xs /\
  length (meshgrid_y xs ys) = length ys * length xs.
Proof.
  intros Hx Hy.
  split. { apply meshgrid_x_lookup; [by eapply lookup_lt_Some|done]. }
  split. { apply meshgrid_y_lookup; [by eapply lookup_lt_Some|done]. }
  unfold meshgrid_x, meshgrid_y. clear. split.
  - induction ys as [|y tl IH]; simpl; [done|]. rewrite length_app, IH. lia.
  - induction ys as [|y tl IH]; simpl; [done|].
    rewrite length_app, length_map, IH. lia.
Qed.

Lemma meshgrid_row_major_witness :
  meshgrid_x [150; 300; 450]%Z [10; 20]%Z !! (1 * length [150; 300; 450]%Z + 2)
    = Some 450%Z /\
  meshgrid_y [150; 300; 450]%Z [10; 20]%Z !! (1 * length [150; 300; 450]%Z + 2)
    = Some 20%Z /\
  length (meshgrid_x [150; 300; 450]%Z [10; 20]%Z)
    = length [10; 20]%Z * length [150; 300; 450]%Z /\
  length (meshgrid_y [150; 300; 450]%Z [10; 20]%Z)
    = length [10; 20]%Z * length [150; 300; 450]%Z.
Proof. apply (meshgrid_row_major [150; 300; 450]%Z [10; 20]%Z 1 2); reflexivity. Defined.

(** ** Colour tables *)



(** ** The radar argument *)

#[local] Arguments do_name_check : simpl never.
#[local] Arguments get_sounding : simpl never.

Section Input.
Context `{Externals}.

(** Handed something that is neither a file name nor a radar object,
    construction warns and returns at once.  The object it leaves has only
    [verbose] and [radar] bound, the latter to the thing handed in. *)
Theorem construct_on_non_radar_object (radar : value) (kwargs : gmap string value) :
  (forall p, radar <> VStr p) -> (forall r, radar <> VRadar r) ->
  exists verbose,
    check_kwargs kwargs DEFAULT_KW !! "verbose" = Some verbose /\
    construct radar kwargs
    = Return tt
        (mk_state (<["radar" := radar]> (<["verbose" := verbose]> ∅))
                  [Warn "Need a real Py-ART radar object, try again"]).
Proof.
  intros Hs Hr.
  destruct (default_kw_present kwargs "verbose") as [verbose Hv]; [by eexists|].
  exists verbose. split; [done|].
  unfold construct, init, store, kw, do_radar_check, try_except, warnings_warn, emit,
    the_radar, getattr, setattr, lift, mbind, M_bind, mret, M_ret.
  rewrite Hv. cbn beta iota.
  destruct radar as [| | |p| |r| | |]; cbn beta iota;
    try (by exfalso; eapply Hs); try (by exfalso; eapply Hr);
    cbn [self log]; rewrite lookup_insert_eq; reflexivity.
Qed.

(** Handed a file name Py-ART cannot read, construction warns and returns
    at once, with nothing but [verbose] bound. *)
Theorem construct_on_unreadable_file (path : string) (kwargs : gmap string value) e :
  pyart_io_read path = Raise e ->
  exists verbose,
    check_kwargs kwargs DEFAULT_KW !! "verbose" = Some verbose /\
    construct (VStr path) kwargs
    = Return tt
        (mk_state (<["verbose" := verbose]> ∅)
                  [Call "pyart.io.read"; Warn "Bad file name provided, try again"]).
Proof.
  intros Hread.
  destruct (default_kw_present kwargs "verbose") as [verbose Hv]; [by eexists|].
  exists verbose. split; [done|].
  unfold construct, init, store, kw, do_radar_check, try_except, warnings_warn, call, emit,
    the_radar, getattr, setattr, lift, mbind, M_bind, mret, M_ret.
  rewrite Hv. cbn beta iota. rewrite Hread. reflexivity.
Qed.

End Input.

Lemma construct_on_non_radar_object_witness :
  exists verbose,
    check_kwargs ∅ (DEFAULT_KW (H := stub_tools)) !! "verbose" = Some verbose /\
    construct (H := stub_tools) (VNum 7) ∅
    = Return tt
        (mk_state (<["radar" := VNum 7]> (<["verbose" := verbose]> ∅))
                  [Warn "Need a real Py-ART radar object, try again"]).
Proof.
  apply (construct_on_non_radar_object (H := stub_tools) (VNum 7) ∅); discriminate.
Defined.

Lemma construct_on_unreadable_file_witness :
  exists verbose,
    check_kwargs ∅ (DEFAULT_KW (H := stub_tools)) !! "verbose" = Some verbose /\
    construct (H := stub_tools) (VStr "nofile.nc") ∅
    = Return tt
        (mk_state (<["verbose" := verbose]> ∅)
                  [Call "pyart.io.read"; Warn "Bad file name provided, try again"]).
Proof.
  apply (construct_on_unreadable_file (H := stub_tools) "nofile.nc" ∅ IOError).
  reflexivity.
Defined.

(** ** A usable sounding *)

Ltac st :=
  repeat (progress (cbn beta iota; cbn [self log];
                    repeat (rewrite lookup_insert_eq || rewrite lookup_insert_ne by done))).

Section Sounding.
Context `{Externals}.

(** With a sounding file SkewT reads and temperature use on, ingestion
    binds the normalised profile as plain arrays, and the temperature grid
    is what [numpy.interp] returns for the gate heights against that
    normalised profile.  [T_flag] stays as it was. *)
Theorem get_sounding_interpolates s r path temp hght kz kT tf vb xx yy zz grid :
  self s !! "radar" = Some (VRadar r) ->
  self s !! "T_flag" = Some tf ->
  truthy tf = Ok true ->
  self s !! "verbose" = Some (VBool vb) ->
  SkewT_Sounding path = Ok (temp, hght) ->
  normalize hght temp = Ok (kz, kT) ->
  radar_coords_to_cart
    (map (fun x => fdiv x RNG_MULT) (meshgrid_x (r_range r) (r_azimuth r)))
    (meshgrid_y (r_range r) (r_azimuth r))
    (meshgrid_y (r_range r) (r_elevation r)) = Ok (xx, yy, zz) ->
  np_interp (map (fun z => (z + r_altitude r)%Z) zz) (plain kz) (plain kT) = Ok grid ->
  exists s',
    get_sounding (VStr path) s = Return tt s' /\
    self s' !! "snd_z" = Some (VArr (plain kz)) /\
    self s' !! "snd_T" = Some (VArr (plain kT)) /\
    self s' !! "radar_z" = Some (VArr (plain (map (fun z => (z + r_altitude r)%Z) zz))) /\
    self s' !! "radar_T" = Some (VArr (plain grid)) /\
    self s' !! "T_flag" = Some tf /\
    radar_of s' = Some r.
Proof.
  intros Hr HT Htf Hv Hsk Hnorm Hcart Hinterp.
  assert (Hm0 : exists m0, mask_item temp 0 = Ok m0).
  { unfold normalize in Hnorm. destruct (mask_item temp 0); [by eexists|done]. }
  destruct Hm0 as [m0 Hm0].
  assert (Hrun : exists lg,
    get_sounding (VStr path) s
    = Return tt
        (mk_state
           (<["radar_T" := VArr (plain grid)]>
           (<["snd_T" := VArr (plain kT)]>
           (<["snd_z" := VArr (plain kz)]>
           (<["radar_T" := VNone]>
           (<["radar_z" := VArr (plain (map (fun z => (z + r_altitude r)%Z) zz))]>
           (<["snd_z" := VArr hght]>
           (<["snd_T" := VArr temp]> (self s)))))))) lg)).
  { unfold get_sounding, try_except, interpolate_sounding_to_radar, get_z_from_radar,
      check_sounding_for_montonic, verbose_print, flag, hasattr, getattr_arr,
      call, print, emit, the_radar, getattr, setattr, lift, mbind, M_bind, mret, M_ret.
    cbn beta iota delta [is_none]. rewrite Hsk. st. rewrite Hr. st. rewrite Hcart. st.
    rewrite bool_decide_eq_true_2 by (by eexists). st.
    rewrite Hm0. st. rewrite Hnorm. st. rewrite HT. st. rewrite Htf. st.
    cbn [adata plain]. rewrite Hinterp. st. rewrite Hv. cbn beta iota delta [truthy].
    destruct vb; st; eexists; reflexivity. }
  destruct Hrun as [lg Hrun]. eexists. split; [exact Hrun|]. cbn [self].
  unfold radar_of. cbn [self].
  repeat split;
    repeat (rewrite lookup_insert_eq || rewrite lookup_insert_ne by done); try done.
  by rewrite Hr.
Qed.

End Sounding.

Lemma get_sounding_interpolates_witness :
  exists s',
    get_sounding (H := stub_tools) (VStr "sounding.txt")
      (mk_state (<["T_flag" := VBool true]> (self (engine_on vol_masked))) [])
      = Return tt s' /\
    self s' !! "snd_z" = Some (VArr (plain [100; 1500; 3000]%Z)) /\
    self s' !! "snd_T" = Some (VArr (plain [20; 10; 0]%Z)) /\
    self s' !! "radar_z"
      = Some (VArr (plain (map (fun z => (z + r_altitude vol_masked)%Z) [1; 1]%Z))) /\
    self s' !! "radar_T" = Some (VArr (plain [0; 0]%Z)) /\
    self s' !! "T_flag" = Some (VBool true) /\
    radar_of s' = Some vol_masked.
Proof.
  apply (get_sounding_interpolates (H := stub_tools) _ vol_masked "sounding.txt"
           ascent_T ascent_z [100; 1500; 3000]%Z [20; 10; 0]%Z (VBool true) false
           [0; 0]%Z [0; 0]%Z [1; 1]%Z [0; 0]%Z); reflexivity.
Defined.

(** ** The name check when KDP is there *)

Section Present.
Context `{Externals}.


End Present.


(** ** The stage theorems at sample inputs *)

Lemma bound_sample (s : pystate) :
  self s !! "radar" = Some (VRadar vol_masked) ->
  self s !! "name_dz" = Some (VStr "DZ") ->
  self s !! "bad" = Some (VNum BAD) ->
  bound s vol_masked "DZ" dz_masked BAD.
Proof.
  intros Hr Hdz Hbad. repeat split; done.
Qed.

Lemma fits_sample (l : list Z) : length l = 2 -> fits dz_masked (plain l).
Proof. intros Hl. split; [exact I|exact Hl]. Qed.

Lemma get_dsd_without_band_raises_witness :
  get_dsd (H := stub_tools) (engine_on vol_masked)
  = Throw AttributeError (engine_on vol_masked).
Proof.
  apply (get_dsd_without_band_raises (H := stub_tools) (engine_on vol_masked) vol_masked
           "DZ" "DR" "KD" dz_masked dr_field kd_field); reflexivity.
Defined.


Lemma get_hid_winter_is_noop_witness :
  get_hid (H := stub_tools) (engine_winter vol_masked)
  = Return tt (mk_state (self (engine_winter vol_masked))
                 (log (engine_winter vol_masked)
                    ++ [Print "Winter HID not enabled yet, sorry!"])).
Proof.
  apply (get_hid_winter_is_noop (H := stub_tools) (engine_winter vol_masked) vol_masked
           "DZ" "DR" "KD" "RH" dz_masked dr_field kd_field rh_field (VBool true));
    reflexivity.
Defined.


Lemma get_precip_rate_winter_is_noop_witness :
  get_precip_rate (H := stub_tools) (VBool false) (VStr "hidro")
    (engine_winter vol_masked)
  = Return tt (mk_state (self (engine_winter vol_masked))
                 (log (engine_winter vol_masked)
                    ++ [Print "Winter precip not enabled yet, sorry!"])).
Proof.
  apply (get_precip_rate_winter_is_noop (H := stub_tools) (engine_winter vol_masked)
           vol_masked "DZ" "DR" "KD" dz_masked dr_field kd_field (VBool true));
    reflexivity.
Defined.



(** ** Edge cases of normalisation, and the classification-driven rain *)

(** What the first statement of the normalisation, [snd_T.mask[0]], does
    to soundings that are not a masked array with a flag per entry:
    temperatures held as a plain array raise AttributeError, a masked
    array whose mask collapsed to [nomask] (no entry missing) raises
    IndexError, and so does an empty sounding. *)
Theorem normalize_needs_mask_flags (z : ndarray) (d : list Z) :
  normalize z (mk_array d NoAttr) = Raise AttributeError /\
  normalize z (mk_array d NoMask) = Raise IndexError /\
  normalize z (mk_array d (MaskArr [])) = Raise IndexError.
Proof. by unfold normalize, mask_item. Qed.

(** When normalisation goes through: a bound sounding whose temperatures
    are a masked array with one flag and one value per height, and which
    has at least one entry, is always normalised without an exception, and
    both profiles are replaced by plain arrays of one length. *)
Theorem check_sounding_returns_on_flagged_sounding (s : pystate) (z T : ndarray) m :
  self s !! "snd_T" = Some (VArr T) ->
  self s !! "snd_z" = Some (VArr z) ->
  amask T = MaskArr m ->
  adata z <> [] ->
  length m = length (adata z) ->
  length (adata T) = length (adata z) ->
  exists kz kT,
    normalize z T = Ok (kz, kT) /\
    length kz = length kT /\
    check_sounding_for_montonic s
    = Return tt (mk_state (<["snd_T" := VArr (plain kT)]>
                             (<["snd_z" := VArr (plain kz)]> (self s))) (log s)).
Proof.
  intros HT Hz Hm Hne Hlm Hlt.
  destruct (normalize_total z T m Hm Hne Hlm Hlt) as (kz & kT & Hn).
  exists kz, kT. split; [done|]. split.
  - destruct (normalize_indices z T kz kT Hn) as (idx & _ & Hz' & HT').
    apply Forall2_length in Hz', HT'. congruence.
  - unfold check_sounding_for_montonic, hasattr, getattr_arr, getattr, setattr, lift,
      mbind, M_bind, mret, M_ret.
    rewrite bool_decide_eq_true_2 by (by eexists). rewrite HT. cbn beta iota.
    assert (Hm0 : exists b, mask_item T 0 = Ok b).
    { unfold mask_item. rewrite Hm. destruct m as [|b m']; [|by exists b].
      destruct (adata z); done. }
    destruct Hm0 as (b & ->). cbn beta iota. rewrite Hz. cbn beta iota.
    rewrite Hn. reflexivity.
Qed.

Lemma check_sounding_returns_on_flagged_sounding_witness :
  exists kz kT,
    normalize ascent_z ascent_T = Ok (kz, kT) /\
    length kz = length kT /\
    check_sounding_for_montonic (with_sounding ascent_z ascent_T)
    = Return tt (mk_state (<["snd_T" := VArr (plain kT)]>
                             (<["snd_z" := VArr (plain kz)]>
                                (self (with_sounding ascent_z ascent_T))))
                          (log (with_sounding ascent_z ascent_T))).
Proof.
  apply (check_sounding_returns_on_flagged_sounding
           (with_sounding ascent_z ascent_T) ascent_z ascent_T
           [false; false; false]); try reflexivity; discriminate.
Defined.

Section Hidro.
Context `{Externals}.


End Hidro.

